(** * Phone-number OSINT backend: cache, provider adapters, reputation
      aggregator and number extraction of [utils.py]

    The development embeds the functions of [utils.py] that carry the logic
    of the lookup pipeline and states their properties:

    - [Py]: the Python values the code manipulates (JSON documents, numbers,
      strings), with binary64 floats taken from the Standard Library's
      [SpecFloat] so that every score is computed bit for bit;
    - [Cache]: the file cache ([_load_cache], [_save_cache], [cache_get],
      [cache_set]);
    - [Providers]: [call_numverify] and the placeholder adapters;
    - [Reputation]: [heuristics_score] and [aggregate_reputation];
    - [LowerCase]: [heuristics_score] over [str.lower] taken as given, for
      text outside ASCII;
    - [Extract]: [extract_numbers_from_text].

    Further modules embed [geocode_city] ([Geocode]), [lookup_number] of
    [app.py] ([Orchestrator]) and [extract_numbers_from_pdf] ([Pdf]).

    The second half holds the properties, one module per component:
    [CacheProps], [ProvidersProps], [HeuristicsProps], [AggregateProps] and
    [ExtractProps], followed by [CacheLaws], [ProviderLaws],
    [HeuristicsLaws], [AggregateLaws], [ExtractLaws], [GeocodeLaws] and
    [OrchestratorLaws]. *)

From Stdlib Require Import ZArith QArith Ascii String SpecFloat.
From stdpp Require Import gmap strings list fin_maps.

#[local] Set Warnings "-register-all".
#[local] Open Scope Z_scope.

(** ** Python values *)

Module Py.

(** *** Exceptions and fallible results *)

Inductive exn :=
| AttributeError | TypeError | ValueError | OverflowError | ZeroDivisionError.

Inductive res (A : Type) :=
| Ok (a : A)
| Raise (e : exn).
Arguments Ok {A} a.
Arguments Raise {A} e.

#[export] Instance res_ret : MRet res := fun _ a => Ok a.
#[export] Instance res_bind : MBind res := fun _ _ k r =>
  match r with
  | Ok a => k a
  | Raise e => Raise e
  end.

#[export] Instance res_fmap : FMap res := fun _ _ f r =>
  match r with
  | Ok a => Ok (f a)
  | Raise e => Raise e
  end.

(** [try: ... except Exception: ...] around a fallible computation. *)
Definition try_except {A} (r : res A) (handler : exn -> A) : A :=
  match r with
  | Ok a => a
  | Raise e => handler e
  end.

(** *** Floats: IEEE 754 binary64, round to nearest even *)

Abbreviation float := spec_float.

Definition prec : Z := 53.
Definition emax : Z := 1024.

Definition fadd : float -> float -> float := SFadd prec emax.
Definition fsub : float -> float -> float := SFsub prec emax.
Definition fmul : float -> float -> float := SFmul prec emax.
Definition fquot : float -> float -> float := SFdiv prec emax.

(** The float nearest to an integer (ties to even), as [float(n)] and the
    int-to-float coercions of mixed arithmetic compute it. *)
Definition of_Z (z : Z) : float := binary_normalize prec emax z 0 false.

(** A decimal literal [n/d] of the source ([0.7] is [lit 7 10]): both
    integers are exactly representable, so their correctly rounded quotient
    is the double nearest to the decimal. *)
Definition lit (n d : Z) : float := fquot (of_Z n) (of_Z d).

Definition is_finite (f : float) : bool :=
  match f with
  | S754_zero _ | S754_finite _ _ _ => true
  | _ => false
  end.

(** Truth value of a float: everything but the two zeros (NaN included). *)
Definition float_truthy (f : float) : bool :=
  match f with
  | S754_zero _ => false
  | _ => true
  end.

(** Python compares a float with an int exactly, without converting. *)
Definition float_Z_compare (f : float) (z : Z) : option comparison :=
  match f with
  | S754_nan => None
  | S754_infinity s => Some (if s then Lt else Gt)
  | S754_zero _ => Some (0 ?= z)
  | S754_finite s m e =>
      Some (cond_Zopp s (Zpos m) * 2 ^ Z.max 0 e ?= z * 2 ^ Z.max 0 (- e))
  end.

(** The rational a finite float stands for (zero for the other floats). *)
Definition F2Q (f : float) : Q :=
  match f with
  | S754_finite s m e =>
      if 0 <=? e then inject_Z (cond_Zopp s (Zpos m) * 2 ^ e)
      else Qmake (cond_Zopp s (Zpos m)) (2 ^ Z.to_pos (- e))
  | _ => 0%Q
  end.

(** [abs(x - target) <= tol] *)
Definition approx (x target tol : float) : bool :=
  SFleb (SFabs (fsub x target)) tol.

(** *** Numbers: [int] or [float] *)

Inductive num :=
| NInt (z : Z)
| NFloat (f : float).

Definition num_compare (a b : num) : option comparison :=
  match a, b with
  | NInt x, NInt y => Some (x ?= y)
  | NFloat x, NFloat y => SFcompare x y
  | NFloat x, NInt y => float_Z_compare x y
  | NInt x, NFloat y => CompOpp <$> float_Z_compare y x
  end.

(** [a < b], [a > b], [a >= b]; every comparison with NaN is [False]. *)
Definition num_lt (a b : num) : bool :=
  match num_compare a b with Some Lt => true | _ => false end.
Definition num_gt (a b : num) : bool := num_lt b a.
Definition num_ge (a b : num) : bool :=
  match num_compare a b with Some (Gt | Eq) => true | _ => false end.

(** [max(a, b)] keeps its first argument unless the second is strictly
    greater; [min(a, b)] unless the second is strictly smaller. *)
Definition py_max (a b : num) : num := if num_gt b a then b else a.
Definition py_min (a b : num) : num := if num_lt b a then b else a.

(** Coercion of an operand to float; an int beyond the float range raises
    [OverflowError]. *)
Definition num_to_float (a : num) : res float :=
  match a with
  | NFloat f => Ok f
  | NInt z => let f := of_Z z in if is_finite f then Ok f else Raise OverflowError
  end.

Definition num_arith (zop : Z -> Z -> Z) (fop : float -> float -> float)
    (a b : num) : res num :=
  match a, b with
  | NInt x, NInt y => Ok (NInt (zop x y))
  | _, _ => x ← num_to_float a; y ← num_to_float b; Ok (NFloat (fop x y))
  end.

Definition num_add : num -> num -> res num := num_arith Z.add fadd.
Definition num_sub : num -> num -> res num := num_arith Z.sub fsub.
Definition num_mul : num -> num -> res num := num_arith Z.mul fmul.

(** [x / y] on floats raises on a zero divisor. *)
Definition float_div (x y : float) : res float :=
  if float_truthy y then Ok (fquot x y) else Raise ZeroDivisionError.

(** *** [sum] over floats

    [sum(iterable)] starts from the int [0]; its first float item turns the
    accumulator into the float [0 + x].  Up to CPython 3.11 the remaining
    items are added left to right; from 3.12 on they go through Neumaier's
    compensated summation, the compensation being added at the end when it
    is non-zero and finite.  The empty sum is the int [0], rendered here as
    [+0.0] (it has the same truth value, and the code never sums an empty
    list). *)

Inductive sum_impl := LeftToRight | Compensated.

Definition cs_add (total : float * float) (x : float) : float * float :=
  let '(hi, lo) := total in
  let t := fadd hi x in
  let lo' :=
    if SFleb (SFabs x) (SFabs hi)
    then fadd lo (fadd (fsub hi t) x)
    else fadd lo (fadd (fsub x t) hi) in
  (t, lo').

Definition cs_to_double (total : float * float) : float :=
  let '(hi, lo) := total in
  if float_truthy lo && is_finite lo then fadd hi lo else hi.

Definition py_sum (impl : sum_impl) (items : list float) : float :=
  match items with
  | [] => S754_zero false
  | x :: rest =>
      let start := fadd (of_Z 0) x in
      match impl with
      | LeftToRight => fold_left fadd rest start
      | Compensated => cs_to_double (fold_left cs_add rest (start, S754_zero false))
      end
  end.

(** *** [round(x, 1)]

    CPython prints the float with one digit after the point, correctly
    rounded from its exact binary value (ties to even), and reads the
    decimal back.  [tenths] is that decimal times ten; dividing the integer
    (as an exact mantissa) by ten with IEEE rounding gives the double
    nearest to the decimal.  Infinities and NaN are returned unchanged. *)

Definition round_half_even (n d : Z) : Z :=
  let q := n / d in
  let r := n mod d in
  match 2 * r ?= d with
  | Lt => q
  | Gt => q + 1
  | Eq => if Z.even q then q else q + 1
  end.

Definition tenths (m : positive) (e : Z) : Z :=
  if 0 <=? e then 10 * Zpos m * 2 ^ e
  else round_half_even (10 * Zpos m) (2 ^ (- e)).

Definition py_round1 (x : float) : float :=
  match x with
  | S754_finite s m e =>
      match tenths m e with
      | Zpos t => fquot (S754_finite s t 0) (of_Z 10)
      | _ => S754_zero s
      end
  | _ => x
  end.

(** *** Strings *)

Definition lower_ascii (c : ascii) : ascii :=
  let n := Ascii.N_of_ascii c in
  if ((65 <=? n) && (n <=? 90))%N then Ascii.ascii_of_N (n + 32) else c.

(** [s.lower()] on ASCII text: the letters A to Z are mapped to a to z and
    every other character is kept.  [str.lower] does the same on ASCII
    strings and more on others (it maps the Kelvin sign to [k], for one),
    so [lower] stands for it on ASCII text only; a string holds other
    characters as the bytes of their UTF-8 encoding, which [lower] keeps.
    What depends on the lower-casing of arbitrary text is stated for
    [heuristics_score_with] of [LowerCase], which takes [str.lower] as it
    is. *)
Fixpoint lower (s : string) : string :=
  match s with
  | EmptyString => EmptyString
  | String c s' => String (lower_ascii c) (lower s')
  end.

(** [s.startswith(pre)] is [String.prefix pre s]; [sub in s] looks for
    [sub] at every position of [s]. *)
Definition startswith (s pre : string) : bool := String.prefix pre s.

Fixpoint contains (sub s : string) : bool :=
  String.prefix sub s ||
  match s with
  | EmptyString => false
  | String _ s' => contains sub s'
  end.

Definition str_truthy (s : string) : bool :=
  match s with
  | EmptyString => false
  | _ => true
  end.

(** *** JSON-shaped values

    The values that [json.load] produces and [json.dump] accepts.  For these
    a dump followed by a load gives the value back, so a JSON file is
    modelled by the value it holds. *)

Inductive pyval :=
| VNone
| VBool (b : bool)
| VInt (z : Z)
| VFloat (f : float)
| VStr (s : string)
| VList (l : list pyval)
| VDict (d : gmap string pyval).

Definition py_truthy (v : pyval) : bool :=
  match v with
  | VNone => false
  | VBool b => b
  | VInt z => negb (z =? 0)
  | VFloat f => float_truthy f
  | VStr s => str_truthy s
  | VList l => match l with [] => false | _ => true end
  | VDict d => negb (bool_decide (d = ∅))
  end.

(** [a or b] *)
Definition py_or (a b : pyval) : pyval := if py_truthy a then a else b.

(** [d.get(k)]: [None] for a missing key. *)
Definition dict_get (d : gmap string pyval) (k : string) : pyval :=
  default VNone (d !! k).

(** [v.get], [v.pop], [v.lower] exist on dicts resp. strings only. *)
Definition as_dict (v : pyval) : res (gmap string pyval) :=
  match v with
  | VDict d => Ok d
  | _ => Raise AttributeError
  end.

Definition py_lower (v : pyval) : res string :=
  match v with
  | VStr s => Ok (lower s)
  | _ => Raise AttributeError
  end.

(** A value used as an operand of arithmetic. *)
Definition as_num (v : pyval) : res num :=
  match v with
  | VInt z => Ok (NInt z)
  | VBool b => Ok (NInt (if b then 1 else 0))
  | VFloat f => Ok (NFloat f)
  | _ => Raise TypeError
  end.

Section Float.
(** [float(s)] on a string is CPython's decimal parser, which the
    development takes as given: [None] stands for [ValueError]. *)
Variable parse_float : string -> option float.

(** [float(v)] *)
Definition py_float (v : pyval) : res float :=
  match v with
  | VInt z => num_to_float (NInt z)
  | VBool b => Ok (of_Z (if b then 1 else 0))
  | VFloat f => Ok f
  | VStr s => match parse_float s with Some f => Ok f | None => Raise ValueError end
  | _ => Raise TypeError
  end.
End Float.

End Py.

(** ** The file cache *)

Module Cache.
Import Py.

Definition CACHE_TTL : Z := 7 * 24 * 3600.

(** The backing file [cache.json]: the JSON document it holds, or [None]
    when the file is missing or does not parse.  The clock reading
    [time.time()] is an argument of the operations. *)
Abbreviation file := (option pyval).

Definition _load_cache (f : file) : pyval := default (VDict ∅) f.

(** The dicts written are those that were loaded from the file, extended
    with payloads decoded from a response or built by the program; for
    these [json.dump] succeeds.  On a value it rejects (an int beyond the
    interpreter's digit limit handed to [cache_set] directly) the code
    raises instead: that case is outside this definition, and nothing below
    claims that [cache_set] returns on arbitrary data. *)
Definition _save_cache (d : gmap string pyval) : file := Some (VDict d).

Definition cache_get (key : string) (now : float) (f : file) : res (pyval * file) :=
  d ← as_dict (_load_cache f);
  let rec := dict_get d key in
  if negb (py_truthy rec) then Ok (VNone, f)
  else
    r ← as_dict rec;
    ts ← as_num (default (VInt 0) (r !! "ts"));
    age ← num_sub (NFloat now) ts;
    if num_gt age (NInt CACHE_TTL)
    then Ok (VNone, _save_cache (delete key d))
    else Ok (dict_get r "data", f).

(** The record [{"ts": ..., "data": ...}] kept under a key. *)
Definition record (stored_at : float) (data : pyval) : pyval :=
  VDict {["ts" := VFloat stored_at; "data" := data]}.

Definition cache_set (key : string) (data : pyval) (now : float) (f : file) : res file :=
  match _load_cache f with
  | VDict d => Ok (_save_cache (<[key := record now data]> d))
  | _ => Raise TypeError
  end.

(** The age test of the specification: [now - stored_at > TTL]. *)
Definition expired (now stored_at : float) : bool :=
  num_gt (NFloat (fsub now stored_at)) (NInt CACHE_TTL).

End Cache.

(** ** Provider adapters *)

Module Providers.
Import Py Cache.

Record request := { access_key : string; req_number : string }.

(** Outcome of [requests.get(...)], [raise_for_status()] and [r.json()]:
    the decoded body, or the text of the exception one of them raised. *)
Inductive response :=
| HttpJson (data : pyval)
| HttpFail (msg : string).

(** What the program can observe and change: the cache file and the
    requests sent to the provider so far. *)
Record world := { cache_file : file; net_log : list request }.

Section NumVerify.
(** The credential read from the environment at import time, and the
    provider's answer to a request given the requests made before. *)
Variable NUMVERIFY_KEY : string.
Variable http_get : list request -> request -> response.

Definition unconfigured : pyval := VDict {["error" := VStr "NUMVERIFY_KEY not set"]}.

Definition error_marker (msg : string) : pyval := VDict {["error" := VStr msg]}.

(** [t_get] and [t_set] are the clock readings inside [cache_get] and
    [cache_set]. *)
Definition call_numverify (number : string) (t_get t_set : float) (w : world)
    : res (pyval * world) :=
  let key := "numverify:" +:+ number in
  '(cached, f1) ← cache_get key t_get (cache_file w);
  let w1 := {| cache_file := f1; net_log := net_log w |} in
  if py_truthy cached then Ok (cached, w1)
  else if negb (str_truthy NUMVERIFY_KEY) then Ok (unconfigured, w1)
  else
    let params := {| access_key := NUMVERIFY_KEY; req_number := number |} in
    let data :=
      match http_get (net_log w1) params with
      | HttpJson data => data
      | HttpFail msg => error_marker msg
      end in
    f2 ← cache_set key data t_set f1;
    Ok (data, {| cache_file := f2; net_log := net_log w1 ++ [params] |}).
End NumVerify.

Definition call_fraudscore (number : string) : pyval :=
  VDict {["note" := VStr "fraudscore_not_configured"]}.

Definition call_twilio_lookup (number : string) : pyval :=
  VDict {["note" := VStr "twilio_not_configured"]}.

Definition call_tellows (number : string) : pyval :=
  VDict {["note" := VStr "tellows_not_configured"]}.

End Providers.

(** ** Reputation aggregator *)

Module Reputation.
Import Py.

Definition suspicious_carrier_keywords : list string :=
  ["premium"; "scam"; "telemarketing"; "spam"].

(** The [if]/[elif] chain on the lower-cased line type. *)
Definition line_type_score (lt : string) (score : num) : num :=
  if contains "premium rate" lt || contains "premium_rate" lt then py_max score (NInt 90)
  else if contains "satellite" lt then py_max score (NInt 80)
  else if contains "voip" lt then py_max score (NInt 45)
  else if contains "unknown" lt || String.eqb lt "" then py_max score (NInt 30)
  else if contains "mobile" lt then py_max score (NInt 10)
  else if contains "landline" lt then py_max score (NInt 5)
  else score.

(** The loop over the carrier keywords. *)
Definition carrier_score (carrier : string) (score : num) : num :=
  fold_left (fun score kw => if contains kw carrier then py_max score (NInt 70) else score)
    suspicious_carrier_keywords score.

(** [isinstance(e164, str) and e164.startswith("+91140")] on the number
    taken from the payload. *)
Definition bad_prefix (d : gmap string pyval) : bool :=
  let e164 := py_or (py_or (dict_get d "international") (VStr ""))
                    (py_or (dict_get d "e164") (VStr "")) in
  match e164 with
  | VStr s => startswith s "+91140"
  | _ => false
  end.

Definition heuristics_score (numverify : pyval) : res float :=
  d ← as_dict numverify;
  let score := NFloat (S754_zero false) in
  lt ← py_lower (py_or (dict_get d "line_type") (VStr ""));
  carrier ← py_lower (py_or (dict_get d "carrier") (VStr ""));
  let score := line_type_score lt score in
  let score := carrier_score carrier score in
  score ← (if bad_prefix d
           then s ← num_add score (NInt 30); Ok (py_min (NInt 100) s)
           else Ok score);
  num_to_float score.

(** An entry of [sources]; the [note] that the heuristics entry also
    carries is dropped from the breakdown and left out. *)
Record source := { src_score : num; src_weight : float }.

Record ReputationResult := {
  score : float;
  label : string;
  breakdown : list (string * source)
}.

Definition label_of (overall : float) : string :=
  if num_ge (NFloat overall) (NInt 75) then "spam"
  else if num_ge (NFloat overall) (NInt 40) then "suspicious"
  else "clean".

Section Aggregate.
Variable parse_float : string -> option float.
Variable impl : sum_impl.

(** [sources] after the fraud-score block.  The dict keeps insertion
    order, which is the order of the two sums. *)
Definition add_fraud (fraud : pyval) (sources : list (string * source))
    : list (string * source) :=
  match fraud with
  | VDict d =>
      match d !! "fraud_score" with
      | Some v =>
          try_except
            (f ← py_float parse_float v;
             Ok (sources ++ [("fraudscore", {| src_score := NFloat f; src_weight := lit 2 10 |})]))
            (fun _ => sources)
      | None => sources
      end
  | _ => sources
  end.

Definition add_tellows (tellows : pyval) (sources : list (string * source))
    : list (string * source) :=
  match tellows with
  | VDict d =>
      match d !! "score" with
      | Some t =>
          try_except
            (x ← py_float parse_float t;
             q ← float_div (fsub x (of_Z 1)) (of_Z 8);
             let tscore := fmul q (of_Z 100) in
             Ok (sources ++ [("tellows", {| src_score := NFloat tscore; src_weight := lit 1 10 |})]))
            (fun _ => sources)
      | None => sources
      end
  | _ => sources
  end.

Definition add_user_reports (user_report_count : Z) (sources : list (string * source))
    : list (string * source) :=
  if num_gt (NInt user_report_count) (NInt 0)
  then
    let rep_score := py_min (NInt 90) (NInt (user_report_count * 30)) in
    sources ++ [("user_reports", {| src_score := rep_score; src_weight := lit 3 10 |})]
  else sources.

Definition total_weight (sources : list (string * source)) : float :=
  let s := py_sum impl ((fun kv => src_weight kv.2) <$> sources) in
  if float_truthy s then s else of_Z 1.

(** [v["score"] * (v["weight"] / total_weight)] *)
Definition term (total : float) (v : source) : res float :=
  q ← float_div (src_weight v) total;
  s ← num_to_float (src_score v);
  Ok (fmul s q).

(** The weighted mean [overall], before rounding. *)
Definition fuse (sources : list (string * source)) : res float :=
  terms ← mapM (fun kv => term (total_weight sources) kv.2) sources;
  Ok (py_sum impl terms).

Definition collect_sources (heur : float) (fraud tellows : pyval)
    (user_report_count : Z) : list (string * source) :=
  let sources := [("heuristics", {| src_score := NFloat heur; src_weight := lit 7 10 |})] in
  let sources := add_fraud fraud sources in
  let sources := add_tellows tellows sources in
  add_user_reports user_report_count sources.

Definition aggregate_reputation (number : string)
    (numverify fraud twilio tellows : pyval) (user_report_count : Z)
    : res ReputationResult :=
  heur ← heuristics_score (py_or numverify (VDict ∅));
  let sources := collect_sources heur fraud tellows user_report_count in
  overall ← fuse sources;
  Ok {| score := py_round1 overall; label := label_of overall; breakdown := sources |}.
End Aggregate.

(** *** The rule table, as the specification words it

    Line-type keywords with their base scores, the carrier rule with its
    floor of 70, and the highest score among the rules that apply. *)

Definition line_type_rules : list ((string -> bool) * Z) :=
  [ (fun lt => contains "premium rate" lt || contains "premium_rate" lt, 90);
    (contains "satellite", 80);
    (contains "voip", 45);
    (fun lt => contains "unknown" lt || String.eqb lt "", 30);
    (contains "mobile", 10);
    (contains "landline", 5) ].

Definition carrier_rule (carrier : string) : bool :=
  existsb (fun kw => contains kw carrier) suspicious_carrier_keywords.

Definition line_type_scores (lt : string) : list Z :=
  omap (fun rule : (string -> bool) * Z => if rule.1 lt then Some rule.2 else None)
    line_type_rules.

Definition applicable_scores (lt carrier : string) : list Z :=
  line_type_scores lt ++ (if carrier_rule carrier then [70] else []).

Definition highest (scores : list Z) : Z := foldr Z.max 0 scores.

(** The values the line-type rules can give, and the values of the
    heuristic once the carrier and prefix rules are counted in. *)
Definition line_type_values : list Z := [0; 5; 10; 30; 45; 80; 90].

Definition heuristic_values : list Z :=
  [0; 5; 10; 30; 45; 70; 80; 90; 35; 40; 60; 75; 100].

(** The running score after the line-type chain and the carrier loop: the
    initial [0.0] when no rule applied, else the int of the best rule. *)
Definition running (best : Z) : num :=
  if best =? 0 then NFloat (S754_zero false) else NInt best.

(** The prefix rule on top of the rules' score: thirty more, at most 100. *)
Definition with_prefix_rule (bad : bool) (best : Z) : Z :=
  if bad then Z.min 100 (best + 30) else best.

(** A payload has no numeric field [k]: it is not a dict, or lacks the key,
    or [float] rejects the value. *)
Definition no_numeric_field (parse_float : string -> option float)
    (k : string) (payload : pyval) : Prop :=
  match payload with
  | VDict d =>
      match d !! k with
      | Some v => ∃ e, py_float parse_float v = Raise e
      | None => True
      end
  | _ => True
  end.

(** Clean, suspicious, spam in increasing order of severity. *)
Definition label_rank (l : string) : Z :=
  if String.eqb l "spam" then 2 else if String.eqb l "suspicious" then 1 else 0.

End Reputation.

(** ** Number extraction *)

Module Extract.
Import Py.

Section Matcher.
(** The [phonenumbers] library: the parsed number type, the matcher (the
    matches it yields on a text, in order) and [format_number] to E.164,
    which may raise. *)
Variable PhoneNumber : Type.

Record PhoneNumberMatch := { raw_string : string; number : PhoneNumber }.

Variable PhoneNumberMatcher : string -> option string -> list PhoneNumberMatch.
Variable format_number_E164 : PhoneNumber -> res string.

(** [default_region or None] *)
Definition region_or_none (default_region : option string) : option string :=
  match default_region with
  | Some r => if str_truthy r then Some r else None
  | None => None
  end.

(** What one match appends to [results]. *)
Definition entry (m : PhoneNumberMatch) : string :=
  try_except (format_number_E164 (number m)) (fun _ => raw_string m).

(** One round of the "unique preserve order" loop on [(seen, out)]. *)
Definition unique_step (st : gset string * list string) (n : string)
    : gset string * list string :=
  let '(seen, out) := st in
  if decide (n ∈ seen) then st else ({[n]} ∪ seen, out ++ [n]).

Definition collect (text : string) (default_region : option string) : list string :=
  fold_left (fun results m => results ++ [entry m])
    (PhoneNumberMatcher text (region_or_none default_region)) [].

(** The "unique preserve order" loop. *)
Definition unique_preserve_order (results : list string) : list string :=
  (fold_left unique_step results (∅, [])).2.

Definition extract_numbers_from_text (text : string) (default_region : option string)
    : list string :=
  if negb (str_truthy text) then []
  else unique_preserve_order (collect text default_region).

(** The list [results] at the point where the function leaves the first
    loop or returns early. *)
Definition results_of (text : string) (default_region : option string) : list string :=
  if negb (str_truthy text) then [] else collect text default_region.
End Matcher.

Arguments raw_string {PhoneNumber} _.
Arguments number {PhoneNumber} _.
Arguments entry {PhoneNumber} _ _.
Arguments collect {PhoneNumber} _ _ _ _.
Arguments results_of {PhoneNumber} _ _ _ _.
Arguments extract_numbers_from_text {PhoneNumber} _ _ _ _.

(** First-seen order, as the specification words it: whenever [s1] stands
    before [s2] in [out], some occurrence of [s1] in [results] comes before
    every occurrence of [s2]. *)
Definition first_seen_order (results out : list string) : Prop :=
  ∀ (i j : nat) (s1 s2 : string),
    out !! i = Some s1 -> out !! j = Some s2 -> (i < j)%nat ->
    ∃ i', results !! i' = Some s1 ∧ ∀ j', results !! j' = Some s2 -> (i' < j')%nat.

(** Invariant of the de-duplication loop once it has consumed [seen_so_far]. *)
Definition unique_invariant (seen_so_far : list string)
    (st : gset string * list string) : Prop :=
  (∀ s, s ∈ st.1 <-> s ∈ st.2) ∧
  NoDup st.2 ∧
  (∀ s, s ∈ st.2 <-> s ∈ seen_so_far) ∧
  first_seen_order seen_so_far st.2.

End Extract.

(** ** Well-formed cache files *)

Module CacheSpec.
Import Py Cache.

(** A cache file as [_save_cache] leaves it: absent, or a dict whose every
    value is a record written by [cache_set]. *)
Definition cache_wf (f : file) : Prop :=
  ∃ d, _load_cache f = VDict d ∧
       ∀ k v, d !! k = Some v -> ∃ stored_at data, v = record stored_at data.

End CacheSpec.

(** ** The payload of a provider answer *)

Module ProvidersSpec.
Import Py Providers.

(** What [call_numverify] makes of the provider's answer: the decoded body,
    or the error marker with the text of the exception. *)
Definition payload_of (answer : response) : pyval :=
  match answer with
  | HttpJson data => data
  | HttpFail msg => error_marker msg
  end.

End ProvidersSpec.

(** ** Reputation: vocabulary of the further properties *)

Module ReputationSpec.
Import Py Reputation.

(** A field the heuristic can lower-case: falsy (so that [or ""] replaces
    it) or a string. *)
Definition textual (v : pyval) : Prop :=
  py_truthy v = false ∨ ∃ s, v = VStr s.

(** The names [sources] can hold, in insertion order, and the weight the
    code gives to each. *)
Definition source_names : list string :=
  ["heuristics"; "fraudscore"; "tellows"; "user_reports"].

Definition configured_weight (name : string) : float :=
  if String.eqb name "heuristics" then lit 7 10
  else if String.eqb name "fraudscore" then lit 2 10
  else if String.eqb name "tellows" then lit 1 10
  else lit 3 10.

End ReputationSpec.

(** ** The heuristic over [str.lower] as it is *)

Module LowerCase.
Import Py Reputation.

Section StrLower.
(** [str.lower] on arbitrary text, taken as given. *)
Variable str_lower : string -> string.

(** [v.lower()] *)
Definition py_lower_with (v : pyval) : res string :=
  match v with
  | VStr s => Ok (str_lower s)
  | _ => Raise AttributeError
  end.

(** [heuristics_score], with [str_lower] for the two [.lower()] calls. *)
Definition heuristics_score_with (numverify : pyval) : res float :=
  d ← as_dict numverify;
  let score := NFloat (S754_zero false) in
  lt ← py_lower_with (py_or (dict_get d "line_type") (VStr ""));
  carrier ← py_lower_with (py_or (dict_get d "carrier") (VStr ""));
  let score := line_type_score lt score in
  let score := carrier_score carrier score in
  score ← (if bad_prefix d
           then s ← num_add score (NInt 30); Ok (py_min (NInt 100) s)
           else Ok score);
  num_to_float score.
End StrLower.

(** What the claim about premium-rate lines needs of [str.lower]: a keyword
    found in a text is found in its lower-cased form.  [str.lower] replaces
    every character by its lower-case image and leaves the characters of
    these keywords (lower-case ASCII letters and the space) as they are. *)
Definition keeps_keywords (str_lower : string -> string) : Prop :=
  ∀ kw s, kw ∈ "premium rate" :: suspicious_carrier_keywords ->
          contains kw s = true -> contains kw (str_lower s) = true.

End LowerCase.

(** ** Geocoding *)

Module Geocode.
Import Py Providers.

(** The [q] parameter: the f-string [f"{city}, {country}"] of the two
    values, or the city alone. *)
Inductive query :=
| QCityCountry (city country : pyval)
| QCity (city : pyval).

Record geo_request := { geo_q : query; geo_key : string; geo_limit : Z }.

(** [v[0]] and [v[k]] for a string [k], where they do not raise. *)
Definition first_item (v : pyval) : option pyval :=
  match v with
  | VList (x :: _) => Some x
  | VStr (String c _) => Some (VStr (String c EmptyString))
  | _ => None
  end.

Definition item (v : pyval) (k : string) : option pyval :=
  match v with
  | VDict d => d !! k
  | _ => None
  end.

(** The body of the [try] once the response is decoded.  Every exception
    raised in it is caught by [except Exception] and turned into [None], and
    so is the fall-through when there are no results: [None] here covers
    both. *)
Definition geometry_of (data : pyval) : option pyval :=
  d ← (match data with VDict d => Some d | _ => None end);
  if py_truthy (dict_get d "results") then
    results ← d !! "results";
    first ← first_item results;
    geo ← item first "geometry";
    lat ← item geo "lat";
    lng ← item geo "lng";
    Some (VDict {["lat" := lat; "lng" := lng]})
  else None.

Section OpenCage.
Variable OPENCAGE_KEY : string.
Variable geo_get : list geo_request -> geo_request -> response.

Definition geocode_city (city country : pyval) (log : list geo_request)
    : pyval * list geo_request :=
  if negb (str_truthy OPENCAGE_KEY) || negb (py_truthy city) then (VNone, log)
  else
    let q := if py_truthy country then QCityCountry city country else QCity city in
    let params := {| geo_q := q; geo_key := OPENCAGE_KEY; geo_limit := 1 |} in
    let coords :=
      match geo_get log params with
      | HttpJson data => default VNone (geometry_of data)
      | HttpFail _ => VNone
      end in
    (coords, log ++ [params]).
End OpenCage.

End Geocode.

(** ** Lookup orchestrator ([lookup_number] of [app.py]) *)

Module Orchestrator.
Import Py Cache Providers Reputation Geocode.

(** The cache file, the requests sent to NumVerify and those sent to the
    geocoder. *)
Record state := { providers : world; geo_log : list geo_request }.

(** The clock readings of one lookup, in the order they are taken. *)
Record clock := {
  t_lookup : float;   (* cache_get of the composite key *)
  t_nv_get : float;   (* cache_get inside call_numverify *)
  t_nv_set : float;   (* cache_set inside call_numverify *)
  t_stamp : float;    (* last_lookup_ts *)
  t_store : float     (* cache_set of the composite result *)
}.

(** [int(x)] on a float truncates toward zero. *)
Definition py_int (x : float) : res Z :=
  match x with
  | S754_zero _ => Ok 0
  | S754_finite s m e =>
      Ok (cond_Zopp s (if 0 <=? e then Zpos m * 2 ^ e else Zpos m / 2 ^ (- e)))
  | S754_infinity _ => Raise OverflowError
  | S754_nan => Raise ValueError
  end.

(** The dict [aggregate_reputation] returns, as a JSON value. *)
Definition num_to_py (n : num) : pyval :=
  match n with
  | NInt z => VInt z
  | NFloat f => VFloat f
  end.

Definition source_to_py (s : source) : pyval :=
  VDict {["score" := num_to_py (src_score s); "weight" := VFloat (src_weight s)]}.

Definition reputation_to_py (r : ReputationResult) : pyval :=
  VDict {["score" := VFloat (score r);
          "label" := VStr (label r);
          "breakdown" :=
            VDict (list_to_map ((fun kv => (kv.1, source_to_py kv.2)) <$> breakdown r))]}.

Definition composite (number : string) (numv fraud tw tellows : pyval)
    (user_reports_count : Z) (agg coords : pyval) (ts : Z) : pyval :=
  VDict {["number" := VStr number;
          "numverify" := numv;
          "fraudscore" := fraud;
          "twilio" := tw;
          "tellows" := tellows;
          "user_reports_count" := VInt user_reports_count;
          "reputation" := agg;
          "coordinates" := coords;
          "last_lookup_ts" := VInt ts]}.

Section Lookup.
Variable NUMVERIFY_KEY OPENCAGE_KEY : string.
Variable http_get : list request -> request -> response.
Variable geo_get : list geo_request -> geo_request -> response.
Variable parse_float : string -> option float.
Variable impl : sum_impl.

Definition lookup_number (number : string) (c : clock) (s : state)
    : res (pyval * state) :=
  let cache_key := "fullint:" +:+ number in
  '(cached, f1) ← cache_get cache_key (t_lookup c) (cache_file (providers s));
  let w := {| cache_file := f1; net_log := net_log (providers s) |} in
  if py_truthy cached then Ok (cached, {| providers := w; geo_log := geo_log s |})
  else
    '(numv, w1) ← call_numverify NUMVERIFY_KEY http_get number (t_nv_get c) (t_nv_set c) w;
    let fraud := call_fraudscore number in
    let tw := call_twilio_lookup number in
    let tellows := call_tellows number in
    let user_reports_count := 0 in
    agg ← aggregate_reputation parse_float impl number numv fraud tw tellows
            user_reports_count;
    nv ← as_dict numv;
    let '(coords, glog) :=
      geocode_city OPENCAGE_KEY geo_get
        (py_or (dict_get nv "location") (VStr ""))
        (py_or (dict_get nv "country_name") (VStr "")) (geo_log s) in
    ts ← py_int (t_stamp c);
    let result :=
      composite number numv fraud tw tellows user_reports_count
        (reputation_to_py agg) coords ts in
    f2 ← cache_set cache_key result (t_store c) (cache_file w1);
    Ok (result, {| providers := {| cache_file := f2; net_log := net_log w1 |};
                   geo_log := glog |}).
End Lookup.

(** The composite result of a lookup whose NumVerify slot holds a marker
    [{"error": msg}]: the placeholder payloads, no coordinates, and the
    reputation of the heuristic alone on a payload without fields. *)
Definition degraded_result (number msg : string) (ts : Z) : pyval :=
  composite number (VDict {["error" := VStr msg]}) (call_fraudscore number)
    (call_twilio_lookup number) (call_tellows number) 0
    (reputation_to_py
       {| score := of_Z 30; label := "clean";
          breakdown :=
            [("heuristics", {| src_score := NFloat (of_Z 30); src_weight := lit 7 10 |})] |})
    VNone ts.

End Orchestrator.

(** ** Numbers from a PDF *)

Module Pdf.
Import Py Extract.

(** ["\n"] *)
Definition newline : string := String (Ascii.ascii_of_nat 10) EmptyString.

(** [sep.join(parts)] *)
Fixpoint join (sep : string) (parts : list string) : string :=
  match parts with
  | [] => ""
  | [x] => x
  | x :: rest => x +:+ sep +:+ join sep rest
  end.

(** The loop over [reader.pages]: a page is the outcome of its
    [extract_text()], which raises or returns [None] or a string. *)
Definition page_texts (pages : list (res (option string))) : list string :=
  fold_left
    (fun text page =>
       match page with
       | Ok page_text => text ++ [default "" page_text]
       | Raise _ => text
       end)
    pages [].

Section Reader.
Variable PhoneNumber : Type.
Variable PhoneNumberMatcher : string -> option string -> list (PhoneNumberMatch PhoneNumber).
Variable format_number_E164 : PhoneNumber -> res string.

(** [reader] is the outcome of [PdfReader(file_stream)]: an exception or the
    pages. *)
Definition extract_numbers_from_pdf (reader : res (list (res (option string))))
    : list string :=
  match reader with
  | Ok pages =>
      extract_numbers_from_text PhoneNumberMatcher format_number_E164
        (join newline (page_texts pages)) None
  | Raise _ => []
  end.
End Reader.

Arguments extract_numbers_from_pdf {PhoneNumber} _ _ _.

End Pdf.

(** * Properties *)

(** ** The result monad *)

Module PyProps.
Import Py.

Lemma bind_Ok {A B} (a : A) (k : A -> res B) : (Ok a ≫= k) = k a.
Proof. reflexivity. Qed.

Lemma bind_Raise {A B} (e : exn) (k : A -> res B) : (Raise e ≫= k) = Raise e.
Proof. reflexivity. Qed.

End PyProps.

(** ** Cache: time to live *)

Module CacheProps.
Import Py PyProps Cache.

Lemma record_truthy stored_at data : py_truthy (record stored_at data) = true.
Proof.
  unfold record, py_truthy. rewrite bool_decide_eq_false_2; [done |].
  apply insert_non_empty.
Qed.

Lemma cache_set_ok key data now f f1 :
  cache_set key data now f = Ok f1 ->
  ∃ d, _load_cache f = VDict d ∧ f1 = Some (VDict (<[key := record now data]> d)).
Proof.
  unfold cache_set. destruct (_load_cache f) as [| | | | | |d]; try discriminate.
  intros [= <-]. by exists d.
Qed.

(** A key that is not in the store is a miss, and the file is left alone. *)
Lemma cache_get_missing key now f d :
  _load_cache f = VDict d -> d !! key = None ->
  cache_get key now f = Ok (VNone, f).
Proof.
  intros Hload Hkey. unfold cache_get, dict_get. rewrite Hload. cbn [as_dict].
  by rewrite bind_Ok, Hkey.
Qed.

(** A record written by [cache_set] is served while it is young enough and
    dropped from the file once it is too old. *)
Lemma cache_get_record key now f d stored_at data :
  _load_cache f = VDict d -> d !! key = Some (record stored_at data) ->
  cache_get key now f =
    if expired now stored_at
    then Ok (VNone, Some (VDict (delete key d)))
    else Ok (data, f).
Proof.
  intros Hload Hkey. unfold cache_get, dict_get. rewrite Hload. cbn [as_dict].
  rewrite bind_Ok, Hkey. cbn [default from_option id].
  rewrite record_truthy. cbn [negb record as_dict].
  rewrite bind_Ok, lookup_insert_eq. cbn [default from_option id as_num].
  rewrite bind_Ok. cbn [num_sub num_arith num_to_float]. rewrite !bind_Ok.
  fold (expired now stored_at). destruct (expired now stored_at); [done |].
  rewrite lookup_insert_ne by done.
  by rewrite lookup_singleton_eq.
Qed.

(** C1. A value stored by [cache_set] under a key is returned unchanged by
    every [cache_get] of that key made while [now - stored_at > CACHE_TTL]
    is false, and the file is left as it was.  A [cache_get] made once the
    age exceeds the TTL returns [None] and rewrites the file without the
    key: the key is no longer in the stored dict, and every later
    [cache_get] of it is a miss. *)
Theorem cache_ttl (key : string) (v : pyval) (stored_at : float) (f f1 : file) :
  cache_set key v stored_at f = Ok f1 ->
  (∀ now, expired now stored_at = false -> cache_get key now f1 = Ok (v, f1)) ∧
  (∀ now, expired now stored_at = true ->
     ∃ d2, cache_get key now f1 = Ok (VNone, Some (VDict d2)) ∧
           (key ∉ dom d2) ∧
           ∀ later, cache_get key later (Some (VDict d2)) = Ok (VNone, Some (VDict d2))).
Proof.
  intros Hset. destruct (cache_set_ok _ _ _ _ _ Hset) as (d & Hd & Hf1). subst f1.
  set (d1 := <[key := record stored_at v]> d).
  assert (Hget : ∀ now, cache_get key now (Some (VDict d1)) =
      if expired now stored_at
      then Ok (VNone, Some (VDict (delete key d1)))
      else Ok (v, Some (VDict d1))).
  { intros now. apply cache_get_record; [done |]. apply lookup_insert_eq. }
  split; intros now Hage; rewrite Hget, Hage; [done |].
  exists (delete key d1). split; [done |]. split.
  - rewrite elem_of_dom, lookup_delete_eq. apply is_Some_None.
  - intros later. apply (cache_get_missing _ _ _ (delete key d1)); [done |].
    apply lookup_delete_eq.
Qed.

(** A run of [cache_ttl]: a value stored at second 1700000000 is read back
    exactly seven days later and is gone one second after that. *)
Lemma cache_ttl_witness :
  let v := VStr "payload" in
  let f1 := Some (VDict {["k" := record (of_Z 1700000000) v]}) in
  cache_get "k" (of_Z 1700604800) f1 = Ok (v, f1) ∧
  ∃ d2, cache_get "k" (of_Z 1700604801) f1 = Ok (VNone, Some (VDict d2)) ∧
        ("k" ∉ dom d2) ∧
        ∀ later, cache_get "k" later (Some (VDict d2)) = Ok (VNone, Some (VDict d2)).
Proof.
  intros v f1.
  destruct (cache_ttl "k" v (of_Z 1700000000) None f1 eq_refl) as [Hfresh Hstale].
  split.
  - apply Hfresh. vm_compute. reflexivity.
  - apply Hstale. vm_compute. reflexivity.
Defined.

End CacheProps.

(** ** Provider adapters: missing credential and cached failures *)

Module ProvidersProps.
Import Py PyProps Cache Providers CacheProps.

Lemma world_eta (w : world) :
  {| cache_file := cache_file w; net_log := net_log w |} = w.
Proof. by destruct w. Qed.

Lemma error_marker_truthy msg : py_truthy (error_marker msg) = true.
Proof.
  unfold error_marker, py_truthy. rewrite bool_decide_eq_false_2; [done |].
  apply insert_non_empty.
Qed.

(** C9. With no entry under ["numverify:<number>"] in the cache and an
    empty credential, [call_numverify] returns the marker
    [{"error": "NUMVERIFY_KEY not set"}] as an ordinary value and leaves
    the world as it was: no request is sent and the cache file is not
    written.  The three placeholder adapters return their
    [..._not_configured] notes for every number. *)
Theorem unconfigured_is_a_value
    (http_get : list request -> request -> response)
    (number : string) (t_get t_set : float) (w : world) (d : gmap string pyval) :
  _load_cache (cache_file w) = VDict d ->
  d !! ("numverify:" +:+ number) = None ->
  call_numverify "" http_get number t_get t_set w
    = Ok (VDict {["error" := VStr "NUMVERIFY_KEY not set"]}, w) ∧
  call_fraudscore number = VDict {["note" := VStr "fraudscore_not_configured"]} ∧
  call_twilio_lookup number = VDict {["note" := VStr "twilio_not_configured"]} ∧
  call_tellows number = VDict {["note" := VStr "tellows_not_configured"]}.
Proof.
  intros Hload Hkey. split; [| done].
  unfold call_numverify.
  rewrite (cache_get_missing _ _ _ d Hload Hkey), bind_Ok.
  cbn [py_truthy str_truthy negb]. by rewrite world_eta.
Qed.

(** A run of [unconfigured_is_a_value] on a cold cache, with a provider that
    would answer if it were asked. *)
Lemma unconfigured_is_a_value_witness :
  let w := {| cache_file := None; net_log := [] |} in
  call_numverify "" (fun _ _ => HttpJson (VDict ∅)) "+14155552671"
      (of_Z 1700000000) (of_Z 1700000001) w
    = Ok (VDict {["error" := VStr "NUMVERIFY_KEY not set"]}, w).
Proof.
  intros w.
  apply (unconfigured_is_a_value (fun _ _ => HttpJson (VDict ∅)) "+14155552671"
           (of_Z 1700000000) (of_Z 1700000001) w ∅); reflexivity.
Defined.

(** C10. On a cache miss with a credential set, a transport failure makes
    [call_numverify] return [{"error": msg}], log one request and write the
    marker under ["numverify:<number>"] with the time of the write.  From
    the world it leaves, every call for the same number made while the
    record's age does not exceed the TTL returns the marker and changes
    nothing, whatever the credential and whatever the provider would answer
    now: no further request is sent.  With an empty credential the same
    miss returns the missing-credential marker and the cache file keeps the
    content the lookup left. *)
Theorem failure_is_cached
    (key_env : string) (http_get : list request -> request -> response)
    (number : string) (t_get t_set : float) (w : world)
    (cached : pyval) (f1 : file) (msg : string) :
  let params := {| access_key := key_env; req_number := number |} in
  cache_get ("numverify:" +:+ number) t_get (cache_file w) = Ok (cached, f1) ->
  py_truthy cached = false ->
  str_truthy key_env = true ->
  http_get (net_log w) params = HttpFail msg ->
  (∃ d1 w1,
     _load_cache f1 = VDict d1 ∧
     w1 = {| cache_file := Some (VDict (<["numverify:" +:+ number
                                          := record t_set (error_marker msg)]> d1));
             net_log := net_log w ++ [params] |} ∧
     call_numverify key_env http_get number t_get t_set w = Ok (error_marker msg, w1) ∧
     ∀ key_env' http_get' t_get' t_set',
       expired t_get' t_set = false ->
       call_numverify key_env' http_get' number t_get' t_set' w1
         = Ok (error_marker msg, w1)) ∧
  call_numverify "" http_get number t_get t_set w
    = Ok (unconfigured, {| cache_file := f1; net_log := net_log w |}).
Proof.
  intros params Hget Hmiss Hkey Hfail.
  assert (∃ d1, _load_cache f1 = VDict d1) as [d1 Hd1].
  { revert Hget. unfold cache_get.
    destruct (_load_cache (cache_file w)) as [| | | | | |d] eqn:Hd; try discriminate.
    cbn [as_dict]. rewrite bind_Ok.
    destruct (negb (py_truthy (dict_get d _))); [intros [= _ <-]; eauto |].
    destruct (as_dict (dict_get d _)) as [r|]; [| discriminate]. rewrite bind_Ok.
    destruct (as_num _) as [ts|]; [| discriminate]. rewrite bind_Ok.
    destruct (num_sub _ ts) as [age|]; [| discriminate]. rewrite bind_Ok.
    destruct (num_gt age _); intros [= _ <-]; eauto. }
  split.
  - eexists d1, _. split; [done |]. split; [reflexivity |]. split.
    + unfold call_numverify. rewrite Hget, bind_Ok. rewrite Hmiss, Hkey.
      cbn [negb net_log]. fold params. rewrite Hfail.
      unfold cache_set. by rewrite Hd1.
    + intros key_env' http_get' t_get' t_set' Hage.
      unfold call_numverify. cbn [cache_file].
      erewrite cache_get_record; [| reflexivity | apply lookup_insert_eq].
      rewrite Hage, bind_Ok. by rewrite error_marker_truthy.
  - unfold call_numverify. rewrite Hget, bind_Ok. by rewrite Hmiss.
Qed.

(** A run of [failure_is_cached]: a timeout on a cold cache is stored, and a
    second call seven days later still serves it although the provider
    would now answer. *)
Lemma failure_is_cached_witness :
  let w := {| cache_file := None; net_log := [] |} in
  let down : list request -> request -> response := fun _ _ => HttpFail "timed out" in
  let up : list request -> request -> response :=
    fun _ _ => HttpJson (VDict {["valid" := VBool true]}) in
  ∃ w1,
    call_numverify "secret" down "+14155552671" (of_Z 1700000000) (of_Z 1700000008) w
      = Ok (error_marker "timed out", w1) ∧
    length (net_log w1) = 1%nat ∧
    call_numverify "secret" up "+14155552671" (of_Z 1700604808) (of_Z 1700604809) w1
      = Ok (error_marker "timed out", w1).
Proof.
  intros w down up.
  destruct (failure_is_cached "secret" down "+14155552671"
              (of_Z 1700000000) (of_Z 1700000008) w VNone None "timed out"
              eq_refl eq_refl eq_refl eq_refl)
    as [(d1 & w1 & Hd1 & Hw1 & Hcall & Hagain) _].
  exists w1. split; [exact Hcall |]. split.
  - rewrite Hw1. reflexivity.
  - apply Hagain. vm_compute. reflexivity.
Defined.

End ProvidersProps.

(** ** Reputation: heuristics *)

Module HeuristicsProps.
Import Py PyProps Reputation LowerCase.

Lemma lower_ascii_fixed (c : ascii) :
  lower_ascii (lower_ascii c) = lower_ascii c.
Proof. by destruct c as [[] [] [] [] [] [] [] []]. Qed.

Lemma prefix_lower (sub s : string) :
  String.prefix sub s = true -> String.prefix (lower sub) (lower s) = true.
Proof.
  revert sub. induction s as [|b s IH]; intros [|a sub]; simpl; try done.
  destruct (ascii_dec a b) as [->|]; [| done].
  intros H. destruct (ascii_dec _ _); [by apply IH | done].
Qed.

(** A substring survives lower-casing. *)
Lemma contains_lower (sub s : string) :
  contains sub s = true -> contains (lower sub) (lower s) = true.
Proof.
  induction s as [|b s IH]; simpl.
  - rewrite orb_false_r. destruct sub; [done | discriminate].
  - intros [H|H]%orb_true_iff; apply orb_true_iff.
    + left. by apply (prefix_lower sub (String b s)).
    + right. by apply IH.
Qed.

Lemma contains_nonempty (sub s : string) :
  str_truthy sub = true -> contains sub s = true -> str_truthy s = true.
Proof. destruct s, sub; simpl; try done. Qed.

Lemma line_type_score_highest (lt : string) :
  line_type_score lt (NFloat (S754_zero false)) = running (highest (line_type_scores lt)) ∧
  highest (line_type_scores lt) ∈ line_type_values.
Proof.
  unfold line_type_score, line_type_scores, line_type_rules.
  cbn [omap list_omap fst snd].
  generalize (contains "premium rate" lt), (contains "premium_rate" lt),
    (contains "satellite" lt), (contains "voip" lt), (contains "unknown" lt),
    (String.eqb lt ""), (contains "mobile" lt), (contains "landline" lt).
  intros [] [] [] [] [] [] [] []; (split; [reflexivity |]);
    cbv; repeat first [apply list_elem_of_here | apply list_elem_of_further].
Qed.

Lemma py_max_70_twice (s : num) :
  py_max (py_max s (NInt 70)) (NInt 70) = py_max s (NInt 70).
Proof. unfold py_max. by destruct (num_gt (NInt 70) s) eqn:E; [| rewrite E]. Qed.

Lemma carrier_score_rule (carrier : string) (s : num) :
  carrier_score carrier s = if carrier_rule carrier then py_max s (NInt 70) else s.
Proof.
  unfold carrier_score, carrier_rule, suspicious_carrier_keywords.
  cbn [fold_left existsb].
  destruct (contains "premium" carrier), (contains "scam" carrier),
    (contains "telemarketing" carrier), (contains "spam" carrier);
    cbn [orb]; by rewrite ?py_max_70_twice.
Qed.

Lemma highest_app (l1 l2 : list Z) :
  highest (l1 ++ l2) = Z.max (highest l1) (highest l2).
Proof.
  assert (0 <= highest l2).
  { induction l2; simpl; lia. }
  induction l1 as [|x l1 IH]; simpl; lia.
Qed.

(** Case analysis on membership in a list given by its elements. *)
Ltac cases_of H :=
  repeat (apply elem_of_cons in H as [H|H]; [subst |]); try by apply elem_of_nil in H.

(** On a payload whose line type and carrier are absent, empty or strings,
    the heuristic is the highest score among the rules that apply, raised
    by the prefix rule when it triggers. *)
Lemma heuristics_score_formula (d : gmap string pyval) (lt carrier : string) :
  py_lower (py_or (dict_get d "line_type") (VStr "")) = Ok lt ->
  py_lower (py_or (dict_get d "carrier") (VStr "")) = Ok carrier ->
  heuristics_score (VDict d)
  = Ok (of_Z (with_prefix_rule (bad_prefix d) (highest (applicable_scores lt carrier)))) ∧
  with_prefix_rule (bad_prefix d) (highest (applicable_scores lt carrier))
    ∈ heuristic_values.
Proof.
  intros Hlt Hcarrier. unfold heuristics_score. cbn [as_dict].
  rewrite bind_Ok, Hlt, bind_Ok, Hcarrier, bind_Ok.
  unfold applicable_scores. rewrite highest_app, carrier_score_rule.
  destruct (line_type_score_highest lt) as [-> Hin].
  revert Hin. generalize (highest (line_type_scores lt)). intros best Hin.
  unfold line_type_values in Hin.
  replace (highest (if carrier_rule carrier then [70] else []))
    with (if carrier_rule carrier then 70 else 0) by (by destruct (carrier_rule _)).
  destruct (bad_prefix d), (carrier_rule carrier); cases_of Hin;
    (split; [vm_compute; reflexivity |]);
    cbv; repeat first [apply list_elem_of_here | apply list_elem_of_further].
Qed.

Lemma field_lower (d : gmap string pyval) (k s : string) :
  d !! k = Some (VStr s) -> py_lower (py_or (dict_get d k) (VStr "")) = Ok (lower s).
Proof.
  intros Hk. unfold dict_get, py_or. rewrite Hk. cbn [default from_option id py_truthy].
  by destruct s.
Qed.

(** [heuristics_score] is [heuristics_score_with] at the ASCII lower-casing. *)
Lemma heuristics_score_ascii (v : pyval) :
  heuristics_score v = heuristics_score_with lower v.
Proof. reflexivity. Qed.

Section AnyLower.
Variable str_lower : string -> string.

Lemma heuristics_score_with_formula (d : gmap string pyval) (lt carrier : string) :
  py_lower_with str_lower (py_or (dict_get d "line_type") (VStr "")) = Ok lt ->
  py_lower_with str_lower (py_or (dict_get d "carrier") (VStr "")) = Ok carrier ->
  heuristics_score_with str_lower (VDict d)
  = Ok (of_Z (with_prefix_rule (bad_prefix d) (highest (applicable_scores lt carrier)))).
Proof.
  intros Hlt Hcarrier. unfold heuristics_score_with. cbn [as_dict].
  rewrite bind_Ok, Hlt, bind_Ok, Hcarrier, bind_Ok.
  unfold applicable_scores. rewrite highest_app, carrier_score_rule.
  destruct (line_type_score_highest lt) as [-> Hin].
  revert Hin. generalize (highest (line_type_scores lt)). intros best Hin.
  unfold line_type_values in Hin.
  replace (highest (if carrier_rule carrier then [70] else []))
    with (if carrier_rule carrier then 70 else 0) by (by destruct (carrier_rule _)).
  destruct (bad_prefix d), (carrier_rule carrier); cases_of Hin; vm_compute; reflexivity.
Qed.

Lemma field_lower_with (d : gmap string pyval) (k s : string) :
  d !! k = Some (VStr s) ->
  py_lower_with str_lower (py_or (dict_get d k) (VStr "")) = Ok (str_lower s).
Proof.
  intros Hk. unfold dict_get, py_or. rewrite Hk. cbn [default from_option id py_truthy].
  by destruct s.
Qed.
End AnyLower.

Lemma lower_keeps_keywords : keeps_keywords lower.
Proof.
  intros kw s Hkw Hin. apply contains_lower in Hin.
  unfold suspicious_carrier_keywords in Hkw. cases_of Hkw; exact Hin.
Qed.

(** C5. Whatever [str.lower] does to other characters, as long as a
    keyword found in a text is found in the lower-cased text: on a payload
    whose line type contains ["premium rate"], whose carrier contains one
    of the spam keywords and whose number does not trigger the prefix rule,
    the heuristic is 90, the larger of 90 and 70 and not their sum.  In
    general, for any lower-casing, when the prefix rule does not trigger
    the heuristic of a payload with string line type and carrier is the
    highest score among all line-type and carrier rules that apply to the
    lower-cased fields. *)
Theorem heuristic_max_combine (str_lower : string -> string)
    (d : gmap string pyval) (line_type carrier : string) :
  d !! "line_type" = Some (VStr line_type) ->
  d !! "carrier" = Some (VStr carrier) ->
  bad_prefix d = false ->
  (keeps_keywords str_lower ->
   contains "premium rate" line_type = true ->
   (∃ kw, kw ∈ suspicious_carrier_keywords ∧ contains kw carrier = true) ->
   heuristics_score_with str_lower (VDict d) = Ok (of_Z 90) ∧
   Z.max 90 70 = 90 ∧ of_Z 90 ≠ of_Z (90 + 70)) ∧
  heuristics_score_with str_lower (VDict d)
  = Ok (of_Z (highest (applicable_scores (str_lower line_type) (str_lower carrier)))).
Proof.
  intros Hlt Hcarrier Hbad.
  pose proof (heuristics_score_with_formula str_lower d _ _
                (field_lower_with str_lower _ _ _ Hlt)
                (field_lower_with str_lower _ _ _ Hcarrier)) as Hformula.
  rewrite Hbad in Hformula. cbn [with_prefix_rule] in Hformula.
  split; [| exact Hformula].
  intros Hkeeps Hpremium (kw & Hkw & Hin). split; [| by split].
  rewrite Hformula. do 2 f_equal.
  apply Hkeeps in Hpremium; [| apply list_elem_of_here].
  assert (carrier_rule (str_lower carrier) = true) as Hrule.
  { unfold carrier_rule. apply existsb_exists. exists kw. split.
    - by apply list_elem_of_In.
    - apply Hkeeps; [by apply list_elem_of_further | done]. }
  unfold applicable_scores. rewrite highest_app, Hrule.
  unfold line_type_scores, line_type_rules. cbn [omap list_omap fst snd].
  rewrite Hpremium. cbn [orb].
  generalize (contains "satellite" (str_lower line_type)),
    (contains "voip" (str_lower line_type)), (contains "unknown" (str_lower line_type)),
    (String.eqb (str_lower line_type) ""), (contains "mobile" (str_lower line_type)),
    (contains "landline" (str_lower line_type)).
  by intros [] [] [] [] [] [].
Qed.

(** Two runs of [heuristic_max_combine] at the ASCII lower-casing, where
    the heuristic is [heuristics_score]: a mobile line of a carrier
    advertising telemarketing scores 70, a premium-rate line of the same
    carrier scores 90. *)
Lemma heuristic_max_combine_witness :
  heuristics_score
    (VDict {["line_type" := VStr "Mobile"; "carrier" := VStr "Acme Telemarketing Ltd"]})
  = Ok (of_Z 70) ∧
  heuristics_score
    (VDict {["line_type" := VStr "premium rate"; "carrier" := VStr "acme telemarketing"]})
  = Ok (of_Z 90).
Proof.
  split.
  - destruct (heuristic_max_combine lower
                {["line_type" := VStr "Mobile"; "carrier" := VStr "Acme Telemarketing Ltd"]}
                "Mobile" "Acme Telemarketing Ltd") as [_ H];
      [vm_compute; reflexivity .. | exact H].
  - destruct (heuristic_max_combine lower
                {["line_type" := VStr "premium rate"; "carrier" := VStr "acme telemarketing"]}
                "premium rate" "acme telemarketing") as [H _];
      [vm_compute; reflexivity .. |].
    apply H; [exact lower_keeps_keywords | reflexivity |].
    exists "telemarketing". split; [| reflexivity].
    unfold suspicious_carrier_keywords.
    repeat first [apply list_elem_of_here | apply list_elem_of_further].
Defined.

End HeuristicsProps.

(** ** Reputation: fusion *)

Module AggregateProps.
Import Py PyProps Providers Reputation HeuristicsProps.

Lemma py_or_dict (d : gmap string pyval) : py_or (VDict d) (VDict ∅) = VDict d.
Proof. unfold py_or, py_truthy. case_bool_decide; by subst. Qed.

(** The heuristic of any payload is one of thirteen whole numbers. *)
Lemma heuristics_score_range (v : pyval) (h : float) :
  heuristics_score v = Ok h -> ∃ n, n ∈ heuristic_values ∧ h = of_Z n.
Proof.
  destruct v as [| | | | | |d]; try discriminate.
  destruct (py_lower (py_or (dict_get d "line_type") (VStr ""))) as [lt|] eqn:Hlt.
  2: { unfold heuristics_score. cbn [as_dict]. rewrite bind_Ok, Hlt. discriminate. }
  destruct (py_lower (py_or (dict_get d "carrier") (VStr ""))) as [carrier|] eqn:Hc.
  2: { unfold heuristics_score. cbn [as_dict]. rewrite bind_Ok, Hlt, bind_Ok, Hc.
       discriminate. }
  destruct (heuristics_score_formula d lt carrier Hlt Hc) as [-> Hin].
  intros [= <-]. eauto.
Qed.

Section Sources.
Variable parse_float : string -> option float.

Lemma add_fraud_absent fraud sources :
  no_numeric_field parse_float "fraud_score" fraud ->
  add_fraud parse_float fraud sources = sources.
Proof.
  unfold no_numeric_field, add_fraud. destruct fraud as [| | | | | |d]; try done.
  destruct (d !! "fraud_score"); [| done]. by intros [e ->].
Qed.

Lemma add_fraud_present d v f sources :
  d !! "fraud_score" = Some v -> py_float parse_float v = Ok f ->
  add_fraud parse_float (VDict d) sources
  = sources ++ [("fraudscore", {| src_score := NFloat f; src_weight := lit 2 10 |})].
Proof. intros Hv Hf. unfold add_fraud. by rewrite Hv, Hf. Qed.

Lemma add_tellows_absent tellows sources :
  no_numeric_field parse_float "score" tellows ->
  add_tellows parse_float tellows sources = sources.
Proof.
  unfold no_numeric_field, add_tellows. destruct tellows as [| | | | | |d]; try done.
  destruct (d !! "score"); [| done]. by intros [e ->].
Qed.

Lemma add_user_reports_none count sources :
  count <= 0 -> add_user_reports count sources = sources.
Proof.
  intros Hc. unfold add_user_reports, num_gt, num_lt, num_compare.
  destruct (Z.compare_spec 0 count); try done. exfalso. lia.
Qed.
End Sources.

(** C2. For every dict payload, when neither the fraud payload nor the
    tellows payload carries a numeric score and there are no user reports,
    heuristics is the only entry of the breakdown, its weight 0.7 divided by
    the total weight is exactly 1.0, and the returned score is exactly
    [heuristics_score] of the payload. *)
Theorem fusion_single_source
    (parse_float : string -> option float) (impl : sum_impl) (number : string)
    (p : gmap string pyval) (fraud twilio tellows : pyval) (h : float) :
  heuristics_score (VDict p) = Ok h ->
  no_numeric_field parse_float "fraud_score" fraud ->
  no_numeric_field parse_float "score" tellows ->
  ∃ r, aggregate_reputation parse_float impl number (VDict p) fraud twilio tellows 0 = Ok r ∧
       breakdown r = [("heuristics", {| src_score := NFloat h; src_weight := lit 7 10 |})] ∧
       fquot (lit 7 10) (total_weight impl (breakdown r)) = of_Z 1 ∧
       score r = h.
Proof.
  intros Hh Hfraud Htellows. unfold aggregate_reputation.
  rewrite py_or_dict, Hh, bind_Ok. unfold collect_sources.
  rewrite add_fraud_absent, add_tellows_absent, add_user_reports_none by (done || lia).
  destruct (heuristics_score_range _ _ Hh) as (n & Hn & ->).
  unfold heuristic_values in Hn.
  destruct impl; cases_of Hn;
    (eexists; split; [vm_compute; reflexivity |]);
    (split; [reflexivity |]); split; vm_compute; reflexivity.
Qed.

(** A run of [fusion_single_source] with the three placeholder payloads. *)
Lemma fusion_single_source_witness :
  ∃ r, aggregate_reputation (fun _ => None) Compensated "+911401234567"
         (VDict {["line_type" := VStr "voip"; "international" := VStr "+911401234567"]})
         (call_fraudscore "+911401234567") (call_twilio_lookup "+911401234567")
         (call_tellows "+911401234567") 0 = Ok r ∧
       score r = of_Z 75.
Proof.
  destruct (fusion_single_source (fun _ => None) Compensated "+911401234567"
              {["line_type" := VStr "voip"; "international" := VStr "+911401234567"]}
              (call_fraudscore "+911401234567") (call_twilio_lookup "+911401234567")
              (call_tellows "+911401234567") (of_Z 75))
    as (r & Hr & _ & _ & Hscore); [vm_compute; reflexivity | exact I | exact I |].
  exists r. split; [exact Hr | exact Hscore].
Defined.

(** C3 (amended). With exactly heuristics at 30 and a fraud score of 80
    present, the breakdown holds the two sources with weights 0.7 and 0.2,
    the returned score is 41.1 (the weighted mean 37/0.9 rounded to one
    decimal) and the label is "suspicious". *)
Theorem fusion_example
    (parse_float : string -> option float) (impl : sum_impl) (number : string)
    (numverify twilio tellows : pyval) (fraud : gmap string pyval) (v : pyval)
    (count : Z) :
  heuristics_score (py_or numverify (VDict ∅)) = Ok (of_Z 30) ->
  fraud !! "fraud_score" = Some v ->
  py_float parse_float v = Ok (of_Z 80) ->
  no_numeric_field parse_float "score" tellows ->
  count <= 0 ->
  ∃ r, aggregate_reputation parse_float impl number numverify (VDict fraud) twilio tellows
         count = Ok r ∧
       breakdown r =
         [("heuristics", {| src_score := NFloat (of_Z 30); src_weight := lit 7 10 |});
          ("fraudscore", {| src_score := NFloat (of_Z 80); src_weight := lit 2 10 |})] ∧
       score r = lit 411 10 ∧
       label r = "suspicious".
Proof.
  intros Hh Hv Hf Htellows Hcount. unfold aggregate_reputation.
  rewrite Hh, bind_Ok. unfold collect_sources.
  rewrite (add_fraud_present _ _ _ _ _ Hv Hf).
  rewrite add_tellows_absent, add_user_reports_none by done.
  destruct impl; (eexists; split; [vm_compute; reflexivity |]);
    (split; [reflexivity |]); split; vm_compute; reflexivity.
Qed.

(** A run of [fusion_example]: a payload without line type, a fraud score
    of 80, the placeholder tellows payload. *)
Lemma fusion_example_witness :
  ∃ r, aggregate_reputation (fun _ => None) LeftToRight "+14155552671" (VDict ∅)
         (VDict {["fraud_score" := VInt 80]}) (call_twilio_lookup "+14155552671")
         (call_tellows "+14155552671") 0 = Ok r ∧
       score r = lit 411 10 ∧ label r = "suspicious".
Proof.
  destruct (fusion_example (fun _ => None) LeftToRight "+14155552671" (VDict ∅)
              (call_twilio_lookup "+14155552671") (call_tellows "+14155552671")
              {["fraud_score" := VInt 80]} (VInt 80) 0)
    as (r & Hr & _ & Hscore & Hlabel);
    [vm_compute; reflexivity | vm_compute; reflexivity | vm_compute; reflexivity
    | exact I | lia |].
  exists r. split; [exact Hr | split; [exact Hscore | exact Hlabel]].
Defined.

(** C3, as stated, fails: on heuristics 30 and fraud score 80 the returned
    score is 41.1 under either summation, and 41.1 is not within 0.1 of
    41.3. *)
Lemma fusion_example_is_not_41_3 :
  let run impl :=
    aggregate_reputation (fun _ => None) impl "+14155552671" (VDict ∅)
      (VDict {["fraud_score" := VInt 80]}) (call_twilio_lookup "+14155552671")
      (call_tellows "+14155552671") 0 in
  score <$> run LeftToRight = Ok (lit 411 10) ∧
  score <$> run Compensated = Ok (lit 411 10) ∧
  approx (lit 411 10) (lit 413 10) (lit 1 10) = false.
Proof. by vm_compute. Qed.

(** *** Labels *)

Lemma num_ge_F2Q (x : float) (z : Z) :
  is_finite x = true ->
  num_ge (NFloat x) (NInt z) = true <-> (inject_Z z <= F2Q x)%Q.
Proof.
  unfold num_ge, num_compare, float_Z_compare, F2Q.
  destruct x as [s| | |s m e]; try discriminate; intros _.
  - change 0%Q with (inject_Z 0). rewrite <- Zle_Qle.
    destruct (Z.compare_spec 0 z); split; intros; try done; lia.
  - destruct (Z.leb_spec 0 e).
    + rewrite <- Zle_Qle, Z.max_r, Z.max_l, Z.mul_1_r by lia.
      destruct (Z.compare_spec (cond_Zopp s (Z.pos m) * 2 ^ e) z);
        split; intros; try done; lia.
    + unfold Qle. cbn [Qnum Qden inject_Z].
      rewrite Z.max_l, Z.max_r, Z.mul_1_r, Pos2Z.inj_pow, Z2Pos.id by lia.
      destruct (Z.compare_spec (cond_Zopp s (Z.pos m)) (z * 2 ^ (- e)));
        split; intros; try done; lia.
Qed.

Lemma num_ge_mono (a b : float) (z : Z) :
  is_finite a = true -> is_finite b = true -> (F2Q a <= F2Q b)%Q ->
  num_ge (NFloat a) (NInt z) = true -> num_ge (NFloat b) (NInt z) = true.
Proof.
  intros Ha Hb Hab Hz. apply num_ge_F2Q; [done |].
  apply num_ge_F2Q in Hz; [| done]. by apply Qle_trans with (F2Q a).
Qed.

Lemma label_of_mono (a b : float) :
  is_finite a = true -> is_finite b = true -> (F2Q a <= F2Q b)%Q ->
  label_rank (label_of a) <= label_rank (label_of b).
Proof.
  intros Ha Hb Hab. unfold label_of.
  pose proof (num_ge_mono a b 75 Ha Hb Hab) as H75.
  pose proof (num_ge_mono a b 40 Ha Hb Hab) as H40.
  destruct (num_ge (NFloat a) (NInt 75)), (num_ge (NFloat a) (NInt 40));
    try rewrite H75 by done; try rewrite H40 by done;
    destruct (num_ge (NFloat b) (NInt 75)), (num_ge (NFloat b) (NInt 40));
    by vm_compute.
Qed.

(** C4 (amended). The label is computed from the weighted mean before it
    is rounded: in every result the score is [py_round1 overall] and the
    label is [label_of overall], where [overall] is the weighted mean
    [fuse] computes from the collected sources.  On
    finite means [label_of] is the threshold function (spam from 75 up,
    suspicious from 40 up to but excluding 75, clean below 40), it is
    monotone, and it labels 74.9 suspicious, 75.0 spam, 39.9 clean and 40.0
    suspicious. *)
Theorem label_follows_unrounded_mean :
  (∀ parse_float impl number numverify fraud twilio tellows count r,
     aggregate_reputation parse_float impl number numverify fraud twilio tellows count = Ok r ->
     ∃ heur overall,
       heuristics_score (py_or numverify (VDict ∅)) = Ok heur ∧
       fuse impl (collect_sources parse_float heur fraud tellows count) = Ok overall ∧
       score r = py_round1 overall ∧
       label r = label_of overall) ∧
  (∀ x, is_finite x = true ->
     (label_of x = "spam" <-> (inject_Z 75 <= F2Q x)%Q) ∧
     (label_of x = "suspicious" <-> (inject_Z 40 <= F2Q x)%Q ∧ (F2Q x < inject_Z 75)%Q) ∧
     (label_of x = "clean" <-> (F2Q x < inject_Z 40)%Q)) ∧
  (∀ a b, is_finite a = true -> is_finite b = true -> (F2Q a <= F2Q b)%Q ->
     label_rank (label_of a) <= label_rank (label_of b)) ∧
  label_of (lit 749 10) = "suspicious" ∧
  label_of (of_Z 75) = "spam" ∧
  label_of (lit 399 10) = "clean" ∧
  label_of (of_Z 40) = "suspicious".
Proof.
  split; [| split; [| split; [exact label_of_mono | by vm_compute]]].
  - intros parse_float impl number numverify fraud twilio tellows count r.
    unfold aggregate_reputation.
    destruct (heuristics_score _) as [heur|]; [| discriminate]. rewrite bind_Ok.
    destruct (fuse _ _) as [overall|] eqn:Hfuse; [| discriminate]. rewrite bind_Ok.
    intros [= <-]. by exists heur, overall.
  - intros x Hx. unfold label_of.
    pose proof (num_ge_F2Q x 75 Hx) as H75. pose proof (num_ge_F2Q x 40 Hx) as H40.
    pose proof (num_ge_mono x x 40 Hx Hx (Qle_refl _)) as _.
    assert (inject_Z 40 <= inject_Z 75)%Q as H4075 by (by rewrite <- Zle_Qle).
    destruct (num_ge (NFloat x) (NInt 75)), (num_ge (NFloat x) (NInt 40)).
    + split; [| split]; split; try done.
      * intros _. by apply H75.
      * intros [_ Hlt]. apply Qlt_not_le in Hlt. destruct Hlt. by apply H75.
      * intros Hlt. apply Qlt_not_le in Hlt. destruct Hlt. by apply H40.
    + split; [| split]; split; try done.
      * intros _. by apply H75.
      * intros [_ Hlt]. apply Qlt_not_le in Hlt. destruct Hlt. by apply H75.
      * intros Hlt. apply Qlt_not_le in Hlt. destruct Hlt.
        apply Qle_trans with (inject_Z 75); [done | by apply H75].
    + split; [| split]; split; try done.
      * intros H. by apply H75 in H.
      * intros _. split; [by apply H40 |]. apply Qnot_le_lt. intros H. by apply H75 in H.
      * intros Hlt. apply Qlt_not_le in Hlt. destruct Hlt. by apply H40.
    + split; [| split]; split; try done.
      * intros H. by apply H75 in H.
      * intros [H _]. by apply H40 in H.
      * intros _. apply Qnot_le_lt. intros H. by apply H40 in H.
Qed.

(** A run of [label_follows_unrounded_mean]: the result of a lookup, the
    thresholds at 75.0 and the step from 74.9 to 75.0. *)
Lemma label_follows_unrounded_mean_witness :
  match aggregate_reputation (fun _ => None) LeftToRight "+14155552671"
          (VDict {["line_type" := VStr "premium rate"]})
          (VDict {["fraud_score" := VFloat (lit 2232 100)]})
          (call_twilio_lookup "+14155552671") (call_tellows "+14155552671") 0 with
  | Ok r =>
      ∃ heur overall,
        heuristics_score (py_or (VDict {["line_type" := VStr "premium rate"]}) (VDict ∅))
          = Ok heur ∧
        fuse LeftToRight
          (collect_sources (fun _ => None) heur
             (VDict {["fraud_score" := VFloat (lit 2232 100)]})
             (call_tellows "+14155552671") 0) = Ok overall ∧
        score r = py_round1 overall ∧
        label r = label_of overall
  | Raise _ => False
  end ∧
  (label_of (of_Z 75) = "spam" <-> (inject_Z 75 <= F2Q (of_Z 75))%Q) ∧
  label_rank (label_of (lit 749 10)) <= label_rank (label_of (of_Z 75)).
Proof.
  destruct label_follows_unrounded_mean as (Hresult & Hthresholds & Hmono & _).
  split; [| split].
  - destruct (aggregate_reputation _ _ _ _ _ _ _ _) as [r|e] eqn:E.
    + exact (Hresult _ _ _ _ _ _ _ _ r E).
    + vm_compute in E. discriminate.
  - destruct (Hthresholds (of_Z 75)) as [H _]; [reflexivity | exact H].
  - apply Hmono; [reflexivity | reflexivity |].
    vm_compute. discriminate.
Defined.

(** C4, as stated, fails on the returned score: a premium-rate line with a
    fraud score of 22.32 comes back with score 75.0 and label "suspicious"
    (the mean is 74.96), while a fraud score of 22.5 gives the same score
    75.0 with label "spam"; a blank line type with a fraud score of 74.82
    comes back with score 40.0 and label "clean".  So the label is not a
    function of the returned score, and 75.0 is not always spam. *)
Lemma label_disagrees_with_returned_score :
  let run impl numverify fraud_score :=
    aggregate_reputation (fun _ => None) impl "+14155552671" numverify
      (VDict {["fraud_score" := VFloat fraud_score]})
      (call_twilio_lookup "+14155552671") (call_tellows "+14155552671") 0 in
  let premium := VDict {["line_type" := VStr "premium rate"]} in
  let outcome r := (score r, label r) in
  outcome <$> run LeftToRight premium (lit 2232 100) = Ok (of_Z 75, "suspicious") ∧
  outcome <$> run Compensated premium (lit 2232 100) = Ok (of_Z 75, "suspicious") ∧
  outcome <$> run LeftToRight premium (lit 225 10) = Ok (of_Z 75, "spam") ∧
  outcome <$> run Compensated premium (lit 225 10) = Ok (of_Z 75, "spam") ∧
  outcome <$> run LeftToRight (VDict ∅) (lit 7482 100) = Ok (of_Z 40, "clean") ∧
  outcome <$> run Compensated (VDict ∅) (lit 7482 100) = Ok (of_Z 40, "clean").
Proof. by vm_compute. Qed.

(** C6. The returned score leaves [0,100] on a numeric fraud score outside
    that range: with no line type and a fraud score of 1000 the score is
    245.6, with a fraud score of -500 it is -87.8, and a tellows score of 100
    (outside its 1..9 scale) gives 180.9. *)
Theorem score_out_of_range :
  let run impl fraud tellows :=
    aggregate_reputation (fun _ => None) impl "+14155552671" (VDict ∅) fraud
      (call_twilio_lookup "+14155552671") tellows 0 in
  ∀ impl,
    score <$> run impl (VDict {["fraud_score" := VInt 1000]}) (call_tellows "+14155552671")
      = Ok (lit 2456 10) ∧
    num_gt (NFloat (lit 2456 10)) (NInt 100) = true ∧
    score <$> run impl (VDict {["fraud_score" := VInt (-500)]}) (call_tellows "+14155552671")
      = Ok (lit (-878) 10) ∧
    num_lt (NFloat (lit (-878) 10)) (NInt 0) = true ∧
    score <$> run impl (call_fraudscore "+14155552671") (VDict {["score" := VInt 100]})
      = Ok (lit 1809 10).
Proof. intros run []; by vm_compute. Qed.

End AggregateProps.

(** ** Extraction: fallback and de-duplication *)

Module ExtractProps.
Import Py Extract.

Lemma unique_step_invariant (l0 : list string) (st : gset string * list string)
    (n : string) :
  unique_invariant l0 st -> unique_invariant (l0 ++ [n]) (unique_step st n).
Proof.
  destruct st as [seen out]. intros (Hseen & Hnodup & Hmem & Horder).
  cbn [fst snd] in *. unfold unique_step.
  assert (Hext : ∀ i j s1 s2, out !! i = Some s1 -> out !! j = Some s2 -> (i < j)%nat ->
            ∃ i', (l0 ++ [n]) !! i' = Some s1 ∧
                  ∀ j', (l0 ++ [n]) !! j' = Some s2 -> (i' < j')%nat).
  { intros i j s1 s2 Hi Hj Hij.
    destruct (Horder i j s1 s2 Hi Hj Hij) as (i' & Hi' & Hlater).
    exists i'. split; [by apply lookup_app_l_Some |].
    intros j' Hj'. apply lookup_lt_Some in Hi' as Hlt.
    destruct (decide (j' < length l0)%nat) as [Hin|Hout]; [| lia].
    rewrite lookup_app_l in Hj' by done. by apply Hlater. }
  destruct (decide (n ∈ seen)) as [Hn|Hn]; unfold unique_invariant; cbn [fst snd].
  - split; [done |]. split; [done |]. split; [| exact Hext].
    intros s. rewrite elem_of_app, list_elem_of_singleton, <- Hmem.
    split; [by left |]. intros [H | ->]; [done | by apply Hseen].
  - assert (n ∉ out) as Hnout by (by rewrite <- Hseen).
    split; [| split; [| split]].
    + intros s. rewrite elem_of_union, elem_of_singleton, elem_of_app,
        list_elem_of_singleton, Hseen. tauto.
    + apply NoDup_app. split; [done |]. split; [| apply NoDup_singleton].
      intros s Hs ->%list_elem_of_singleton. done.
    + intros s. rewrite !elem_of_app, Hmem. tauto.
    + intros i j s1 s2 Hi Hj Hij.
      destruct (decide (j < length out)%nat) as [Hjin|Hjout].
      * rewrite lookup_app_l in Hi, Hj by lia. by apply (Hext i j).
      * apply lookup_lt_Some in Hj as Hjlt. rewrite length_app in Hjlt.
        cbn [length] in Hjlt.
        rewrite lookup_app_l in Hi by lia.
        rewrite lookup_app_r in Hj by lia.
        replace (j - length out)%nat with 0%nat in Hj by lia.
        injection Hj as <-.
        assert (s1 ∈ l0) as Hs1 by (apply Hmem; by eapply list_elem_of_lookup_2).
        apply list_elem_of_lookup_1 in Hs1 as [i' Hi'].
        exists i'. split; [by apply lookup_app_l_Some |].
        intros j' Hj'. apply lookup_lt_Some in Hi' as Hlt.
        destruct (decide (j' < length l0)%nat) as [Hin|Hout]; [| lia].
        rewrite lookup_app_l in Hj' by done.
        exfalso. apply Hnout, Hmem. by eapply list_elem_of_lookup_2.
Qed.

Lemma unique_loop_invariant (l l0 : list string) (st : gset string * list string) :
  unique_invariant l0 st -> unique_invariant (l0 ++ l) (fold_left unique_step l st).
Proof.
  revert l0 st. induction l as [|n l IH]; intros l0 st Hinv; cbn [fold_left].
  - by rewrite app_nil_r.
  - replace (l0 ++ n :: l) with ((l0 ++ [n]) ++ l) by (by rewrite <- app_assoc).
    by apply IH, unique_step_invariant.
Qed.

Lemma unique_invariant_init : unique_invariant [] (∅, []).
Proof.
  split; [| split; [apply NoDup_nil_2 | split; [done |]]].
  - intros s. cbn [fst snd]. split; [by intros ?%not_elem_of_empty | by intros ?%elem_of_nil].
  - intros i j s1 s2 Hi. cbn [snd] in Hi. by rewrite lookup_nil in Hi.
Qed.

(** The loop keeps exactly the strings of [results], each once, in the
    order in which they were first seen. *)
Lemma unique_preserve_order_spec (results : list string) :
  NoDup (unique_preserve_order results) ∧
  (∀ s, s ∈ unique_preserve_order results <-> s ∈ results) ∧
  first_seen_order results (unique_preserve_order results).
Proof.
  destruct (unique_loop_invariant results [] (∅, []) unique_invariant_init)
    as (_ & Hnodup & Hmem & Horder).
  by rewrite app_nil_l in *.
Qed.

Section Matcher.
Variable PhoneNumber : Type.
Variable PhoneNumberMatcher : string -> option string -> list (PhoneNumberMatch PhoneNumber).
Variable format_number_E164 : PhoneNumber -> res string.

Lemma append_entries (l : list (PhoneNumberMatch PhoneNumber)) (acc : list string) :
  fold_left (fun results m => results ++ [entry format_number_E164 m]) l acc
  = acc ++ (entry format_number_E164 <$> l).
Proof.
  revert acc. induction l as [|m l IH]; intros acc; cbn [fold_left fmap list_fmap].
  - by rewrite app_nil_r.
  - rewrite IH. by rewrite <- app_assoc.
Qed.

Lemma collect_fmap text region :
  collect PhoneNumberMatcher format_number_E164 text region
  = entry format_number_E164 <$> PhoneNumberMatcher text (region_or_none region).
Proof. unfold collect. by rewrite append_entries. Qed.

Lemma extract_unique text region :
  extract_numbers_from_text PhoneNumberMatcher format_number_E164 text region
  = unique_preserve_order (results_of PhoneNumberMatcher format_number_E164 text region).
Proof.
  unfold extract_numbers_from_text, results_of. by destruct (negb (str_truthy text)).
Qed.
End Matcher.

(** C7. On a non-empty text, every match the matcher yields has its entry
    in the output: the E.164 string when [format_number] returns one, and
    the raw matched substring when [format_number] raises. *)
Theorem every_match_contributes
    (PhoneNumber : Type)
    (PhoneNumberMatcher : string -> option string -> list (PhoneNumberMatch PhoneNumber))
    (format_number_E164 : PhoneNumber -> res string)
    (text : string) (region : option string) (m : PhoneNumberMatch PhoneNumber) :
  text ≠ "" ->
  m ∈ PhoneNumberMatcher text (region_or_none region) ->
  let out := extract_numbers_from_text PhoneNumberMatcher format_number_E164 text region in
  (∀ e164, format_number_E164 (number m) = Ok e164 -> e164 ∈ out) ∧
  (∀ e, format_number_E164 (number m) = Raise e -> raw_string m ∈ out).
Proof.
  intros Htext Hm out.
  assert (entry format_number_E164 m ∈ out) as Hentry.
  { unfold out. rewrite extract_unique. apply unique_preserve_order_spec.
    unfold results_of. destruct text; [done |]. cbn [str_truthy negb].
    rewrite collect_fmap. by apply list_elem_of_fmap_2. }
  unfold entry in Hentry. split.
  - intros e164 H. by rewrite H in Hentry.
  - intros e H. by rewrite H in Hentry.
Qed.

(** C8. The output has no duplicates, holds exactly the strings of
    [results] (the E.164 form of a match, or its raw substring when
    formatting failed) and lists them in first-seen order.  Two matches
    whose strings differ are kept as two entries. *)
Theorem output_is_unique_in_first_seen_order
    (PhoneNumber : Type)
    (PhoneNumberMatcher : string -> option string -> list (PhoneNumberMatch PhoneNumber))
    (format_number_E164 : PhoneNumber -> res string)
    (text : string) (region : option string) :
  let out := extract_numbers_from_text PhoneNumberMatcher format_number_E164 text region in
  let results := results_of PhoneNumberMatcher format_number_E164 text region in
  NoDup out ∧
  (∀ s, s ∈ out <-> s ∈ results) ∧
  first_seen_order results out ∧
  (∀ s1 s2, s1 ∈ results -> s2 ∈ results -> s1 ≠ s2 ->
     ∃ i j, i ≠ j ∧ out !! i = Some s1 ∧ out !! j = Some s2).
Proof.
  intros out results. unfold out. rewrite extract_unique. fold results.
  destruct (unique_preserve_order_spec results) as (Hnodup & Hmem & Horder).
  split; [done |]. split; [done |]. split; [done |].
  intros s1 s2 H1 H2 Hne.
  apply Hmem, list_elem_of_lookup_1 in H1 as [i Hi].
  apply Hmem, list_elem_of_lookup_1 in H2 as [j Hj].
  exists i, j. split; [| done]. intros ->. congruence.
Qed.

(** A run of [every_match_contributes] with a matcher that finds two
    numbers and a formatter that rejects the second. *)
Lemma every_match_contributes_witness :
  let good := {| raw_string := "(415) 555-2671"; number := "+14155552671" |} in
  let odd := {| raw_string := "0000 12"; number := "" |} in
  let matcher : string -> option string -> list (PhoneNumberMatch string) :=
    fun _ _ => [good; odd] in
  let format : string -> res string :=
    fun n => if str_truthy n then Ok n else Raise ValueError in
  let out := extract_numbers_from_text matcher format "call (415) 555-2671 or 0000 12" None in
  "+14155552671" ∈ out ∧ "0000 12" ∈ out.
Proof.
  intros good odd matcher format out. split.
  - destruct (every_match_contributes string matcher format
                "call (415) 555-2671 or 0000 12" None good) as [H _];
      [done | apply list_elem_of_here |].
    by apply H.
  - destruct (every_match_contributes string matcher format
                "call (415) 555-2671 or 0000 12" None odd) as [_ H];
      [done | apply list_elem_of_further, list_elem_of_here |].
    by apply (H ValueError).
Defined.

(** A run of [output_is_unique_in_first_seen_order]: a number matched twice
    around a match that falls back to its raw text. *)
Lemma output_is_unique_in_first_seen_order_witness :
  let good := {| raw_string := "(415) 555-2671"; number := "+14155552671" |} in
  let odd := {| raw_string := "0000 12"; number := "" |} in
  let again := {| raw_string := "+1 415 555 2671"; number := "+14155552671" |} in
  let matcher : string -> option string -> list (PhoneNumberMatch string) :=
    fun _ _ => [good; odd; again] in
  let format : string -> res string :=
    fun n => if str_truthy n then Ok n else Raise ValueError in
  let out := extract_numbers_from_text matcher format "some text" None in
  NoDup out ∧ ∃ i j, i ≠ j ∧ out !! i = Some "+14155552671" ∧ out !! j = Some "0000 12".
Proof.
  intros good odd again matcher format out.
  destruct (output_is_unique_in_first_seen_order string matcher format "some text" None)
    as (Hnodup & _ & _ & Hkept).
  split; [exact Hnodup |].
  apply Hkept; [apply list_elem_of_here | apply list_elem_of_further, list_elem_of_here |].
  discriminate.
Defined.

End ExtractProps.

(** ** Cache: invariant, overwriting, independent keys *)

Module CacheLaws.
Import Py PyProps Cache CacheSpec CacheProps.

Lemma cache_wf_dict (d : gmap string pyval) :
  (∀ k v, d !! k = Some v -> ∃ stored_at data, v = record stored_at data) ->
  cache_wf (Some (VDict d)).
Proof. intros H. by exists d. Qed.

Lemma cache_set_wf (key : string) (v : pyval) (now : float) (f : file) :
  cache_wf f -> ∃ f', cache_set key v now f = Ok f' ∧ cache_wf f'.
Proof.
  intros (d & Hload & Hrecords).
  unfold cache_set. rewrite Hload. eexists. split; [reflexivity |].
  apply cache_wf_dict. intros k x [[_ <-]|[_ Hk]]%lookup_insert_Some; eauto.
Qed.

Lemma cache_get_wf (key : string) (now : float) (f : file) :
  cache_wf f -> ∃ out f', cache_get key now f = Ok (out, f') ∧ cache_wf f'.
Proof.
  intros (d & Hload & Hrecords).
  destruct (d !! key) as [x|] eqn:Hkey.
  - destruct (Hrecords _ _ Hkey) as (stored_at & data & ->).
    rewrite (cache_get_record _ _ _ _ _ _ Hload Hkey).
    destruct (expired now stored_at); eexists _, _; (split; [reflexivity |]).
    + apply cache_wf_dict. intros k x [_ Hk]%lookup_delete_Some. eauto.
    + by exists d.
  - rewrite (cache_get_missing _ _ _ _ Hload Hkey). eexists _, _.
    split; [reflexivity |]. by exists d.
Qed.

(** X1. On a well-formed cache file (absent, or a dict of records written by
    [cache_set]) [cache_get] does not raise and leaves a well-formed file,
    and every [cache_set] that returns leaves a well-formed file. *)
Theorem cache_wf_preserved (key : string) (v : pyval) (now : float) (f : file) :
  cache_wf f ->
  (∀ f', cache_set key v now f = Ok f' -> cache_wf f') ∧
  (∃ out f', cache_get key now f = Ok (out, f') ∧ cache_wf f').
Proof.
  intros Hwf. split; [| by apply cache_get_wf].
  intros f' Hset. destruct (cache_set_wf key v now f Hwf) as (f'' & Hset' & Hwf').
  rewrite Hset in Hset'. by injection Hset' as ->.
Qed.

(** A run of [cache_wf_preserved] on a file that does not exist yet. *)
Lemma cache_wf_preserved_witness :
  cache_wf (Some (VDict {["k" := record (of_Z 1700000000) (VInt 7)]})) ∧
  (∃ out f', cache_get "k" (of_Z 1700000000) None = Ok (out, f') ∧ cache_wf f').
Proof.
  destruct (cache_wf_preserved "k" (VInt 7) (of_Z 1700000000) None) as [Hset Hget].
  - exists ∅. split; [reflexivity |]. intros k v Hk. by rewrite lookup_empty in Hk.
  - split; [by apply Hset | exact Hget].
Defined.

(** X2. [cache_set] overwrites: after two writes under one key the file is
    the one the second write alone would have produced, and a read that is
    fresh with respect to the second write returns the second value. *)
Theorem cache_set_overwrites (key : string) (v1 v2 : pyval) (t1 t2 : float)
    (f f1 f2 : file) :
  cache_set key v1 t1 f = Ok f1 ->
  cache_set key v2 t2 f1 = Ok f2 ->
  cache_set key v2 t2 f = Ok f2 ∧
  ∀ now, expired now t2 = false -> cache_get key now f2 = Ok (v2, f2).
Proof.
  intros H1 H2.
  destruct (cache_set_ok _ _ _ _ _ H1) as (d & Hd & ->).
  destruct (cache_set_ok _ _ _ _ _ H2) as (d1 & Hd1 & ->).
  injection Hd1 as <-. split.
  - unfold cache_set. rewrite Hd. unfold _save_cache. by rewrite insert_insert_eq.
  - intros now Hnow. erewrite cache_get_record; [| reflexivity | apply lookup_insert_eq].
    by rewrite Hnow.
Qed.

Lemma cache_set_overwrites_witness :
  ∃ f2, cache_set "k" (VInt 2) (of_Z 1700000100) None = Ok f2 ∧
        cache_get "k" (of_Z 1700000200) f2 = Ok (VInt 2, f2).
Proof.
  destruct (cache_set_overwrites "k" (VInt 1) (VInt 2) (of_Z 1700000000) (of_Z 1700000100)
              None _ _ eq_refl eq_refl) as [Hset Hget].
  eexists. split; [exact Hset |]. apply Hget. vm_compute. reflexivity.
Defined.

(** What [cache_get] returns, apart from the file. *)
Lemma cache_get_value (key : string) (now : float) (f : file) (d : gmap string pyval) :
  _load_cache f = VDict d ->
  fst <$> cache_get key now f = fst <$> cache_get key now (Some (VDict d)).
Proof.
  intros Hload. unfold cache_get. rewrite Hload. cbn [_load_cache default from_option id as_dict].
  rewrite !bind_Ok.
  destruct (negb (py_truthy (dict_get d key))); [done |].
  destruct (as_dict (dict_get d key)) as [r|]; [| done]. rewrite !bind_Ok.
  destruct (as_num _) as [ts|]; [| done]. rewrite !bind_Ok.
  destruct (num_sub _ ts) as [age|]; [| done]. rewrite !bind_Ok.
  by destruct (num_gt age _).
Qed.

Lemma cache_get_depends_on_entry (key : string) (now : float) (d d' : gmap string pyval) :
  d !! key = d' !! key ->
  fst <$> cache_get key now (Some (VDict d)) = fst <$> cache_get key now (Some (VDict d')).
Proof.
  intros Heq. unfold cache_get, dict_get.
  cbn [_load_cache default from_option id as_dict]. rewrite !bind_Ok, Heq.
  destruct (negb (py_truthy _)); [done |].
  destruct (as_dict _) as [r|]; [| done]. rewrite !bind_Ok.
  destruct (as_num _) as [ts|]; [| done]. rewrite !bind_Ok.
  destruct (num_sub _ ts) as [age|]; [| done]. rewrite !bind_Ok.
  by destruct (num_gt age _).
Qed.

(** The file a successful [cache_get] leaves: the one it found, or the
    loaded dict without the key. *)
Lemma cache_get_file (key : string) (now : float) (f f' : file) (out : pyval) :
  cache_get key now f = Ok (out, f') ->
  ∃ d, _load_cache f = VDict d ∧ (f' = f ∨ f' = Some (VDict (delete key d))).
Proof.
  unfold cache_get.
  destruct (_load_cache f) as [| | | | | |d] eqn:Hd; try discriminate.
  cbn [as_dict]. rewrite bind_Ok. intros H. exists d. split; [done |]. revert H.
  destruct (negb (py_truthy (dict_get d key))); [intros [= _ <-]; by left |].
  destruct (as_dict _) as [r|]; [| discriminate]. rewrite bind_Ok.
  destruct (as_num _) as [ts|]; [| discriminate]. rewrite bind_Ok.
  destruct (num_sub _ ts) as [age|]; [| discriminate]. rewrite bind_Ok.
  destruct (num_gt age _); intros [= _ <-]; [by right | by left].
Qed.

(** X3. Keys do not interfere: what [cache_get] returns for a key is the
    same before and after a [cache_set] of another key, and before and after
    a [cache_get] of another key, also when that read evicts its own
    expired record. *)
Theorem other_keys_untouched (key other : string) (v : pyval) (t now : float)
    (f : file) :
  key ≠ other ->
  (∀ f', cache_set key v t f = Ok f' ->
         fst <$> cache_get other now f' = fst <$> cache_get other now f) ∧
  (∀ out f' t', cache_get key t' f = Ok (out, f') ->
         fst <$> cache_get other now f' = fst <$> cache_get other now f).
Proof.
  intros Hne. split.
  - intros f' Hset. destruct (cache_set_ok _ _ _ _ _ Hset) as (d & Hd & ->).
    rewrite (cache_get_value other now f d Hd).
    apply cache_get_depends_on_entry. by apply lookup_insert_ne.
  - intros out f' t' Hget. destruct (cache_get_file _ _ _ _ _ Hget) as (d & Hd & [-> | ->]);
      [done |].
    rewrite (cache_get_value other now f d Hd).
    apply cache_get_depends_on_entry. by apply lookup_delete_ne.
Qed.

(** A run of [other_keys_untouched]: a provider entry and a composite entry
    for the same number. *)
Lemma other_keys_untouched_witness :
  let d : gmap string pyval := {["numverify:+1" := record (of_Z 1700000000) (VInt 1)]} in
  fst <$> cache_get "numverify:+1" (of_Z 1700000002)
            (Some (VDict (<["fullint:+1" := record (of_Z 1700000001) (VInt 2)]> d)))
  = fst <$> cache_get "numverify:+1" (of_Z 1700000002) (Some (VDict d)).
Proof.
  intros d.
  destruct (other_keys_untouched "fullint:+1" "numverify:+1" (VInt 2)
              (of_Z 1700000001) (of_Z 1700000002) (Some (VDict d))) as [H _]; [done |].
  by apply H.
Defined.

(** X4. A record without a ["ts"] field counts as stored at time 0: once
    the clock is past the TTL it is evicted and never served. *)
Theorem record_without_ts_expires (key : string) (now : float) (f : file)
    (d r : gmap string pyval) :
  _load_cache f = VDict d ->
  d !! key = Some (VDict r) ->
  r ≠ ∅ ->
  r !! "ts" = None ->
  num_gt (NFloat now) (NInt CACHE_TTL) = true ->
  cache_get key now f = Ok (VNone, Some (VDict (delete key d))).
Proof.
  intros Hload Hkey Hr Hts Hnow. unfold cache_get, dict_get. rewrite Hload. cbn [as_dict].
  rewrite bind_Ok, Hkey. cbn [default from_option id py_truthy].
  rewrite bool_decide_eq_false_2 by done. cbn [negb as_dict].
  rewrite bind_Ok, Hts. cbn [default from_option id as_num]. rewrite bind_Ok.
  assert (num_sub (NFloat now) (NInt 0) = Ok (NFloat now)) as ->.
  { destruct now as [[]| [] | |s m e]; try done. }
  by rewrite bind_Ok, Hnow.
Qed.

Lemma record_without_ts_expires_witness :
  let d : gmap string pyval := {["k" := VDict {["data" := VInt 1]}]} in
  cache_get "k" (of_Z 1700000000) (Some (VDict d)) = Ok (VNone, Some (VDict (delete "k" d))).
Proof.
  intros d.
  apply (record_without_ts_expires "k" (of_Z 1700000000) (Some (VDict d)) d
           {["data" := VInt 1]}); try reflexivity.
  apply insert_non_empty.
Defined.

End CacheLaws.

(** ** Provider adapter: hits, misses and refreshes *)

Module ProviderLaws.
Import Py PyProps Cache CacheSpec Providers ProvidersSpec CacheProps ProvidersProps CacheLaws.

Lemma payload_of_truthy_fail msg : py_truthy (payload_of (HttpFail msg)) = true.
Proof. apply error_marker_truthy. Qed.

(** A miss with a credential: one request, whose payload is returned and
    stored with the time of the write. *)
Lemma call_numverify_miss
    (key_env : string) (http_get : list request -> request -> response)
    (number : string) (t_get t_set : float) (w : world) (cached : pyval) (f1 : file) :
  let params := {| access_key := key_env; req_number := number |} in
  let data := payload_of (http_get (net_log w) params) in
  cache_get ("numverify:" +:+ number) t_get (cache_file w) = Ok (cached, f1) ->
  py_truthy cached = false ->
  str_truthy key_env = true ->
  ∃ d1, _load_cache f1 = VDict d1 ∧
        call_numverify key_env http_get number t_get t_set w
        = Ok (data, {| cache_file := Some (VDict (<["numverify:" +:+ number
                                                   := record t_set data]> d1));
                       net_log := net_log w ++ [params] |}).
Proof.
  intros params data Hget Hmiss Hkey.
  destruct (cache_get_file _ _ _ _ _ Hget) as (d & Hd & Hf1).
  assert (∃ d1, _load_cache f1 = VDict d1) as [d1 Hd1].
  { destruct Hf1 as [-> | ->]; eauto. }
  exists d1. split; [done |].
  unfold call_numverify. rewrite Hget, bind_Ok, Hmiss, Hkey.
  cbn [negb net_log]. fold params. unfold cache_set. rewrite Hd1. reflexivity.
Qed.

(** A fresh record with a truthy payload is served as it is: no request,
    no write, whatever the credential. *)
Lemma call_numverify_hit
    (key_env : string) (http_get : list request -> request -> response)
    (number : string) (t_get t_set stored_at : float) (w : world)
    (d : gmap string pyval) (data : pyval) :
  _load_cache (cache_file w) = VDict d ->
  d !! ("numverify:" +:+ number) = Some (record stored_at data) ->
  expired t_get stored_at = false ->
  py_truthy data = true ->
  call_numverify key_env http_get number t_get t_set w = Ok (data, w).
Proof.
  intros Hload Hkey Hage Hdata. unfold call_numverify.
  rewrite (cache_get_record _ _ _ _ _ _ Hload Hkey), Hage, bind_Ok, Hdata.
  by rewrite world_eta.
Qed.

(** X5. On a miss with a credential, a decoded provider payload is returned
    unmodified, logged as one request carrying the credential and the
    number, and stored; while the record is fresh every later call for the
    number returns the same payload and sends nothing. *)
Theorem success_is_cached
    (key_env : string) (http_get : list request -> request -> response)
    (number : string) (t_get t_set : float) (w : world)
    (cached data : pyval) (f1 : file) :
  let params := {| access_key := key_env; req_number := number |} in
  cache_get ("numverify:" +:+ number) t_get (cache_file w) = Ok (cached, f1) ->
  py_truthy cached = false ->
  str_truthy key_env = true ->
  http_get (net_log w) params = HttpJson data ->
  py_truthy data = true ->
  ∃ w1,
    call_numverify key_env http_get number t_get t_set w = Ok (data, w1) ∧
    net_log w1 = net_log w ++ [params] ∧
    ∀ key_env' http_get' t_get' t_set',
      expired t_get' t_set = false ->
      call_numverify key_env' http_get' number t_get' t_set' w1 = Ok (data, w1).
Proof.
  intros params Hget Hmiss Hkey Hanswer Hdata.
  destruct (call_numverify_miss key_env http_get number t_get t_set w cached f1
              Hget Hmiss Hkey) as (d1 & Hd1 & Hcall).
  fold params in Hcall. rewrite Hanswer in Hcall. cbn [payload_of] in Hcall.
  eexists. split; [exact Hcall |]. split; [done |].
  intros key_env' http_get' t_get' t_set' Hage.
  eapply call_numverify_hit; [reflexivity | apply lookup_insert_eq | exact Hage | exact Hdata].
Qed.

Lemma success_is_cached_witness :
  let w := {| cache_file := None; net_log := [] |} in
  let line := VDict {["line_type" := VStr "mobile"]} in
  let up : list request -> request -> response := fun _ _ => HttpJson line in
  let down : list request -> request -> response := fun _ _ => HttpFail "timed out" in
  ∃ w1,
    call_numverify "secret" up "+14155552671" (of_Z 1700000000) (of_Z 1700000001) w
      = Ok (line, w1) ∧
    call_numverify "" down "+14155552671" (of_Z 1700000500) (of_Z 1700000501) w1
      = Ok (line, w1).
Proof.
  intros w line up down.
  destruct (success_is_cached "secret" up "+14155552671" (of_Z 1700000000)
              (of_Z 1700000001) w VNone line None eq_refl eq_refl eq_refl eq_refl eq_refl)
    as (w1 & Hcall & _ & Hagain).
  exists w1. split; [exact Hcall |]. apply Hagain. vm_compute. reflexivity.
Defined.

(** X6. A falsy payload (an empty object or list, [null], [0], ...) is
    stored but never served: although its record is fresh, the next call
    with a credential sends a new request. *)
Theorem falsy_payload_is_refetched
    (key_env : string) (http_get : list request -> request -> response)
    (number : string) (t_get t_set : float) (w : world)
    (cached data : pyval) (f1 : file) :
  let params := {| access_key := key_env; req_number := number |} in
  cache_get ("numverify:" +:+ number) t_get (cache_file w) = Ok (cached, f1) ->
  py_truthy cached = false ->
  str_truthy key_env = true ->
  http_get (net_log w) params = HttpJson data ->
  py_truthy data = false ->
  ∃ w1,
    call_numverify key_env http_get number t_get t_set w = Ok (data, w1) ∧
    ∀ http_get' t_get' t_set',
      expired t_get' t_set = false ->
      ∃ out w2,
        call_numverify key_env http_get' number t_get' t_set' w1 = Ok (out, w2) ∧
        net_log w2 = net_log w1 ++ [params].
Proof.
  intros params Hget Hmiss Hkey Hanswer Hdata.
  destruct (call_numverify_miss key_env http_get number t_get t_set w cached f1
              Hget Hmiss Hkey) as (d1 & Hd1 & Hcall).
  fold params in Hcall. rewrite Hanswer in Hcall. cbn [payload_of] in Hcall.
  match type of Hcall with _ = Ok (_, ?w1) => set (W1 := w1) in * end.
  exists W1. split; [exact Hcall |].
  intros http_get' t_get' t_set' Hage.
  destruct (call_numverify_miss key_env http_get' number t_get' t_set' W1 data
              (cache_file W1)) as (d2 & _ & Hcall2); [| exact Hdata | exact Hkey |].
  - unfold W1. cbn [cache_file].
    erewrite cache_get_record; [| reflexivity | apply lookup_insert_eq].
    by rewrite Hage.
  - eexists _, _. split; [exact Hcall2 |]. reflexivity.
Qed.

Lemma falsy_payload_is_refetched_witness :
  let w := {| cache_file := None; net_log := [] |} in
  let empty : list request -> request -> response := fun _ _ => HttpJson (VDict ∅) in
  ∃ w1,
    call_numverify "secret" empty "+14155552671" (of_Z 1700000000) (of_Z 1700000001) w
      = Ok (VDict ∅, w1) ∧
    ∃ out w2,
      call_numverify "secret" empty "+14155552671" (of_Z 1700000002) (of_Z 1700000003) w1
        = Ok (out, w2) ∧
      length (net_log w2) = 2%nat.
Proof.
  intros w empty.
  destruct (falsy_payload_is_refetched "secret" empty "+14155552671" (of_Z 1700000000)
              (of_Z 1700000001) w VNone (VDict ∅) None eq_refl eq_refl eq_refl eq_refl
              eq_refl)
    as (w1 & Hcall & Hagain).
  exists w1. split; [exact Hcall |].
  destruct (Hagain empty (of_Z 1700000002) (of_Z 1700000003)) as (out & w2 & Hcall2 & Hlog);
    [vm_compute; reflexivity |].
  exists out, w2. split; [exact Hcall2 |].
  rewrite Hlog, length_app.
  assert (net_log w1 = [{| access_key := "secret"; req_number := "+14155552671" |}]) as ->.
  { vm_compute in Hcall. by injection Hcall as <-. }
  reflexivity.
Defined.

(** X7. An expired record is refreshed: with a credential, the call sends
    exactly one request, returns the new payload and replaces the record by
    one stamped with the time of the write. *)
Theorem expired_entry_is_refreshed
    (key_env : string) (http_get : list request -> request -> response)
    (number : string) (t_get t_set stored_at : float) (w : world)
    (d : gmap string pyval) (old : pyval) :
  let params := {| access_key := key_env; req_number := number |} in
  let data := payload_of (http_get (net_log w) params) in
  _load_cache (cache_file w) = VDict d ->
  d !! ("numverify:" +:+ number) = Some (record stored_at old) ->
  expired t_get stored_at = true ->
  str_truthy key_env = true ->
  call_numverify key_env http_get number t_get t_set w
  = Ok (data, {| cache_file := Some (VDict (<["numverify:" +:+ number
                                             := record t_set data]> d));
                 net_log := net_log w ++ [params] |}).
Proof.
  intros params data Hload Hkey Hage Hcred.
  destruct (call_numverify_miss key_env http_get number t_get t_set w VNone
              (Some (VDict (delete ("numverify:" +:+ number) d))))
    as (d1 & Hd1 & Hcall); [| reflexivity | exact Hcred |].
  - by rewrite (cache_get_record _ _ _ _ _ _ Hload Hkey), Hage.
  - injection Hd1 as <-. rewrite Hcall. by rewrite insert_delete_eq.
Qed.

Lemma expired_entry_is_refreshed_witness :
  let old := VDict {["line_type" := VStr "mobile"]} in
  let new := VDict {["line_type" := VStr "voip"]} in
  let d : gmap string pyval := {["numverify:+1" := record (of_Z 1700000000) old]} in
  let w := {| cache_file := Some (VDict d); net_log := [] |} in
  call_numverify "secret" (fun _ _ => HttpJson new) "+1" (of_Z 1800000000) (of_Z 1800000001) w
  = Ok (new, {| cache_file :=
                  Some (VDict (<["numverify:+1" := record (of_Z 1800000001) new]> d));
                net_log := [{| access_key := "secret"; req_number := "+1" |}] |}).
Proof.
  intros old new d w.
  apply (expired_entry_is_refreshed "secret" (fun _ _ => HttpJson new) "+1"
           (of_Z 1800000000) (of_Z 1800000001) (of_Z 1700000000) w d old);
    vm_compute; reflexivity.
Defined.



End ProviderLaws.

(** ** Heuristics: range, failures, prefix rule, letter case *)

Module HeuristicsLaws.
Import Py PyProps Reputation ReputationSpec LowerCase HeuristicsProps AggregateProps.

(** X9. Whenever [heuristics_score] returns, it returns a whole number
    between 0 and 100. *)
Theorem heuristics_score_bounded (v : pyval) (h : float) :
  heuristics_score v = Ok h -> ∃ n, 0 <= n <= 100 ∧ h = of_Z n.
Proof.
  intros Hh. destruct (heuristics_score_range v h Hh) as (n & Hn & ->).
  exists n. split; [| done]. unfold heuristic_values in Hn. cases_of Hn; lia.
Qed.

Lemma heuristics_score_bounded_witness :
  ∃ n, 0 <= n <= 100 ∧ of_Z 100 = of_Z n.
Proof.
  apply (heuristics_score_bounded
           (VDict {["line_type" := VStr "satellite"; "e164" := VStr "+911405550000"]})).
  vm_compute. reflexivity.
Defined.

Lemma py_lower_or_cases (x : pyval) :
  (textual x ∧ ∃ s, py_lower (py_or x (VStr "")) = Ok s) ∨
  (¬ textual x ∧ py_lower (py_or x (VStr "")) = Raise AttributeError).
Proof.
  unfold textual, py_or. destruct (py_truthy x) eqn:Hx.
  - destruct x; try (right; split; [intros [? | [? ?]]; congruence | done]).
    left. split; [right | ]; eauto.
  - left. split; [by left | by exists ""].
Qed.

(** X10. [heuristics_score] returns exactly on dict payloads whose
    [line_type] and [carrier] are each absent, falsy or a string; on every
    other payload it raises [AttributeError], and it raises nothing else. *)
Theorem heuristics_score_returns_iff (v : pyval) :
  ((∃ h, heuristics_score v = Ok h) <->
   ∃ d, v = VDict d ∧ textual (dict_get d "line_type") ∧ textual (dict_get d "carrier")) ∧
  (∀ e, heuristics_score v = Raise e -> e = AttributeError).
Proof.
  destruct v as [| | | | | |d];
    try (split; [split; [intros [h H]; discriminate | intros (d & H & _); discriminate]
                | by intros e [= <-]]).
  destruct (py_lower_or_cases (dict_get d "line_type")) as [[Tl [lt Hlt]] | [Tl Hlt]].
  - destruct (py_lower_or_cases (dict_get d "carrier")) as [[Tc [c Hc]] | [Tc Hc]].
    + destruct (heuristics_score_formula d lt c Hlt Hc) as [Hf _]. rewrite Hf.
      split; [| by intros e [=]]. split; [intros _; by exists d | intros _; eauto].
    + assert (heuristics_score (VDict d) = Raise AttributeError) as ->.
      { unfold heuristics_score. cbn [as_dict]. by rewrite bind_Ok, Hlt, bind_Ok, Hc. }
      split; [| by intros e [= <-]].
      split; [intros [h H]; discriminate | intros (d' & [= <-] & _ & Tc'); done].
  - assert (heuristics_score (VDict d) = Raise AttributeError) as ->.
    { unfold heuristics_score. cbn [as_dict]. by rewrite bind_Ok, Hlt. }
    split; [| by intros e [= <-]].
    split; [intros [h H]; discriminate | intros (d' & [= <-] & Tl' & _); done].
Qed.

Lemma heuristics_score_returns_iff_witness :
  (∃ h, heuristics_score (VDict {["line_type" := VNone; "carrier" := VStr "Acme"]}) = Ok h) ∧
  heuristics_score (VDict {["line_type" := VInt 5]}) = Raise AttributeError.
Proof.
  split.
  - apply (proj1 (heuristics_score_returns_iff _)). eexists. split; [reflexivity |].
    split; [by left | right; by eexists].
  - destruct (heuristics_score (VDict {["line_type" := VInt 5]})) as [h|e] eqn:E.
    + vm_compute in E. discriminate.
    + f_equal. exact (proj2 (heuristics_score_returns_iff _) e E).
Defined.

Lemma best_at_most_90 (lt carrier : string) :
  0 <= highest (applicable_scores lt carrier) <= 90.
Proof.
  unfold applicable_scores. rewrite highest_app.
  destruct (line_type_score_highest lt) as [_ Hin]. unfold line_type_values in Hin.
  revert Hin. generalize (highest (line_type_scores lt)). intros best Hin.
  destruct (carrier_rule carrier); cbn [highest foldr]; cases_of Hin; lia.
Qed.

(** X11. Whatever [str.lower] yields for the line type and the carrier:
    when the number starts with ["+91140"], the heuristic is the best rule
    score on the lower-cased fields plus 30, capped at 100; the prefix rule
    never lowers the score. *)
Theorem prefix_rule_adds_thirty (str_lower : string -> string)
    (d : gmap string pyval) (lt carrier : string) :
  py_lower_with str_lower (py_or (dict_get d "line_type") (VStr "")) = Ok lt ->
  py_lower_with str_lower (py_or (dict_get d "carrier") (VStr "")) = Ok carrier ->
  bad_prefix d = true ->
  let best := highest (applicable_scores lt carrier) in
  heuristics_score_with str_lower (VDict d) = Ok (of_Z (Z.min 100 (best + 30))) ∧
  best <= Z.min 100 (best + 30) <= 100.
Proof.
  intros Hlt Hc Hbad best.
  pose proof (heuristics_score_with_formula str_lower d lt carrier Hlt Hc) as Hf.
  rewrite Hbad in Hf. split; [exact Hf |].
  pose proof (best_at_most_90 lt carrier). fold best in H. lia.
Qed.

Lemma prefix_rule_adds_thirty_witness :
  heuristics_score
    (VDict {["line_type" := VStr "satellite"; "international" := VStr "+911405550000"]})
  = Ok (of_Z 100).
Proof.
  destruct (prefix_rule_adds_thirty lower
              {["line_type" := VStr "satellite"; "international" := VStr "+911405550000"]}
              "satellite" "") as [H _]; [vm_compute; reflexivity .. | exact H].
Defined.

Lemma lower_fixed (s : string) : lower (lower s) = lower s.
Proof. induction s as [|c s IH]; cbn [lower]; [done |]. by rewrite lower_ascii_fixed, IH. Qed.

(** X12. Letter case does not matter (ASCII): replacing the line type and
    the carrier by strings that differ from them only in case leaves the
    heuristic unchanged. *)
Theorem heuristic_ignores_case (d : gmap string pyval) (lt lt' carrier carrier' : string) :
  d !! "line_type" = Some (VStr lt) ->
  d !! "carrier" = Some (VStr carrier) ->
  lower lt' = lower lt ->
  lower carrier' = lower carrier ->
  heuristics_score (VDict (<["line_type" := VStr lt']> (<["carrier" := VStr carrier']> d)))
  = heuristics_score (VDict d).
Proof.
  intros Hlt Hc Hlt' Hc'.
  set (d' := <["line_type" := VStr lt']> (<["carrier" := VStr carrier']> d)).
  destruct (heuristics_score_formula d _ _ (field_lower _ _ _ Hlt) (field_lower _ _ _ Hc))
    as [-> _].
  assert (d' !! "line_type" = Some (VStr lt')) as H1 by apply lookup_insert_eq.
  assert (d' !! "carrier" = Some (VStr carrier')) as H2.
  { unfold d'. rewrite lookup_insert_ne by done. apply lookup_insert_eq. }
  destruct (heuristics_score_formula d' _ _ (field_lower _ _ _ H1) (field_lower _ _ _ H2))
    as [-> _].
  rewrite Hlt', Hc'. do 3 f_equal.
  unfold bad_prefix, dict_get, d'. by rewrite !lookup_insert_ne.
Qed.

Lemma heuristic_ignores_case_witness :
  heuristics_score (VDict {["line_type" := VStr "VoIP"; "carrier" := VStr "SPAM Inc"]})
  = heuristics_score (VDict {["line_type" := VStr "voip"; "carrier" := VStr "spam inc"]}).
Proof.
  rewrite <- (heuristic_ignores_case
                {["line_type" := VStr "voip"; "carrier" := VStr "spam inc"]}
                "voip" "VoIP" "spam inc" "SPAM Inc"); reflexivity.
Defined.

End HeuristicsLaws.

(** ** Fusion: totality and the shape of the breakdown *)

Module AggregateLaws.
Import Py PyProps Providers Reputation ReputationSpec HeuristicsProps AggregateProps.

Lemma py_min_int (a b : Z) : py_min (NInt a) (NInt b) = NInt (Z.min a b).
Proof.
  unfold py_min, num_lt, num_compare.
  destruct (Z.compare_spec b a); f_equal; lia.
Qed.

Section Shape.
Variable parse_float : string -> option float.

Lemma add_fraud_cases fraud sources :
  add_fraud parse_float fraud sources = sources ∨
  ∃ f, add_fraud parse_float fraud sources
       = sources ++ [("fraudscore", {| src_score := NFloat f; src_weight := lit 2 10 |})].
Proof.
  unfold add_fraud. destruct fraud as [| | | | | |d]; try by left.
  destruct (d !! "fraud_score") as [v|]; [| by left].
  destruct (py_float parse_float v) as [f|]; [right; by exists f | by left].
Qed.

Lemma add_tellows_cases tellows sources :
  add_tellows parse_float tellows sources = sources ∨
  ∃ t, add_tellows parse_float tellows sources
       = sources ++ [("tellows", {| src_score := NFloat t; src_weight := lit 1 10 |})].
Proof.
  unfold add_tellows. destruct tellows as [| | | | | |d]; try by left.
  destruct (d !! "score") as [v|]; [| by left].
  destruct (py_float parse_float v) as [x|]; [| by left].
  right. eexists. reflexivity.
Qed.

Lemma add_user_reports_some count sources :
  0 < count ->
  add_user_reports count sources
  = sources ++ [("user_reports",
                 {| src_score := NInt (Z.min 90 (count * 30)); src_weight := lit 3 10 |})].
Proof.
  intros Hc. unfold add_user_reports, num_gt, num_lt, num_compare.
  destruct (Z.compare_spec 0 count); try (exfalso; lia). by rewrite py_min_int.
Qed.
End Shape.

Lemma user_score_finite (count : Z) :
  0 < count -> ∃ x, num_to_float (NInt (Z.min 90 (count * 30))) = Ok x.
Proof.
  intros Hc.
  assert (Z.min 90 (count * 30) = 30 ∨ Z.min 90 (count * 30) = 60 ∨
          Z.min 90 (count * 30) = 90) as [-> | [-> | ->]] by lia;
    eexists; vm_compute; reflexivity.
Qed.

Lemma term_ok (total x : float) (v : source) :
  float_truthy total = true -> num_to_float (src_score v) = Ok x ->
  term total v = Ok (fmul x (fquot (src_weight v) total)).
Proof. intros Htotal Hx. unfold term, float_div. by rewrite Htotal, bind_Ok, Hx. Qed.

Lemma mapM_term_ok (total : float) (sources : list (string * source)) :
  float_truthy total = true ->
  Forall (fun kv : string * source => ∃ x, num_to_float (src_score kv.2) = Ok x) sources ->
  ∃ terms, mapM (fun kv : string * source => term total kv.2) sources = Ok terms.
Proof.
  intros Htotal. induction 1 as [|kv l [x Hx] _ [terms IH]].
  - by exists [].
  - exists (fmul x (fquot (src_weight kv.2) total) :: terms).
    change (mapM (fun kv : string * source => term total kv.2) (kv :: l))
      with (term total kv.2 ≫= fun y =>
            mapM (fun kv : string * source => term total kv.2) l ≫= fun k => Ok (y :: k)).
    by rewrite (term_ok total x kv.2 Htotal Hx), bind_Ok, IH.
Qed.

Lemma fuse_ok (impl : sum_impl) (sources : list (string * source)) :
  float_truthy (total_weight impl sources) = true ->
  Forall (fun kv : string * source => ∃ x, num_to_float (src_score kv.2) = Ok x) sources ->
  ∃ overall, fuse impl sources = Ok overall.
Proof.
  intros Htotal Hscores. unfold fuse.
  destruct (mapM_term_ok _ _ Htotal Hscores) as [terms ->]. eexists. reflexivity.
Qed.

(** The list [sources] in all its shapes: heuristics, then each of the
    other three or nothing. *)
Lemma add_fraud_app parse_float fraud sources :
  add_fraud parse_float fraud sources = sources ++ add_fraud parse_float fraud [].
Proof.
  unfold add_fraud. destruct fraud as [| | | | | |d]; rewrite ?app_nil_r; try done.
  destruct (d !! "fraud_score") as [v|]; rewrite ?app_nil_r; [| done].
  destruct (py_float parse_float v); cbn [try_except mbind res_bind]; by rewrite ?app_nil_r.
Qed.

Lemma add_tellows_app parse_float tellows sources :
  add_tellows parse_float tellows sources = sources ++ add_tellows parse_float tellows [].
Proof.
  unfold add_tellows. destruct tellows as [| | | | | |d]; rewrite ?app_nil_r; try done.
  destruct (d !! "score") as [v|]; rewrite ?app_nil_r; [| done].
  destruct (py_float parse_float v); cbn [try_except mbind res_bind]; by rewrite ?app_nil_r.
Qed.

Lemma add_user_reports_app count sources :
  add_user_reports count sources = sources ++ add_user_reports count [].
Proof. unfold add_user_reports. destruct (num_gt _ _); by rewrite ?app_nil_r. Qed.

Lemma collect_sources_shape parse_float heur fraud tellows count :
  ∃ F T U,
    collect_sources parse_float heur fraud tellows count
    = [("heuristics", {| src_score := NFloat heur; src_weight := lit 7 10 |})] ++ F ++ T ++ U ∧
    (F = [] ∨ ∃ f, F = [("fraudscore", {| src_score := NFloat f; src_weight := lit 2 10 |})]) ∧
    (T = [] ∨ ∃ t, T = [("tellows", {| src_score := NFloat t; src_weight := lit 1 10 |})]) ∧
    (count <= 0 ∧ U = [] ∨
     0 < count ∧
     U = [("user_reports",
           {| src_score := NInt (Z.min 90 (count * 30)); src_weight := lit 3 10 |})]).
Proof.
  exists (add_fraud parse_float fraud []), (add_tellows parse_float tellows []),
    (add_user_reports count []).
  split; [| split; [| split]].
  - unfold collect_sources.
    rewrite add_user_reports_app, add_tellows_app, add_fraud_app.
    by rewrite <- !app_assoc.
  - destruct (add_fraud_cases parse_float fraud []) as [-> | [f ->]]; eauto.
  - destruct (add_tellows_cases parse_float tellows []) as [-> | [t ->]]; eauto.
  - destruct (Z_lt_le_dec 0 count) as [Hc|Hc].
    + right. split; [done |]. by rewrite add_user_reports_some.
    + left. split; [done |]. by rewrite add_user_reports_none.
Qed.

Lemma collected_sources_fuse parse_float impl heur fraud tellows count :
  ∃ overall, fuse impl (collect_sources parse_float heur fraud tellows count) = Ok overall.
Proof.
  destruct (collect_sources_shape parse_float heur fraud tellows count)
    as (F & T & U & -> & HF & HT & HU).
  apply fuse_ok.
  - destruct HF as [-> | [f ->]], HT as [-> | [t ->]], HU as [[_ ->] | [_ ->]], impl;
      vm_compute; reflexivity.
  - destruct (Z_lt_le_dec 0 count) as [Hc|Hc].
    + pose proof (user_score_finite count Hc) as Hu.
      destruct HF as [-> | [f ->]], HT as [-> | [t ->]], HU as [[? ->] | [_ ->]];
        try (exfalso; lia);
        repeat (apply Forall_cons; split; [cbn [snd src_score num_to_float]; eauto |]);
        apply Forall_nil_2.
    + destruct HF as [-> | [f ->]], HT as [-> | [t ->]], HU as [[_ ->] | [? ->]];
        try (exfalso; lia);
        repeat (apply Forall_cons; split; [cbn [snd src_score num_to_float]; eauto |]);
        apply Forall_nil_2.
Qed.

(** X13. [aggregate_reputation] fails only where [heuristics_score] fails:
    whatever the fraud and tellows payloads and the report count, it
    returns a result when the heuristic does and raises the heuristic's
    exception otherwise.  A fraud or tellows field that is not a number is
    left out, not fatal. *)
Theorem aggregate_fails_only_with_heuristics
    (parse_float : string -> option float) (impl : sum_impl) (number : string)
    (numverify fraud twilio tellows : pyval) (count : Z) :
  match heuristics_score (py_or numverify (VDict ∅)) with
  | Ok _ =>
      ∃ r, aggregate_reputation parse_float impl number numverify fraud twilio tellows count
           = Ok r
  | Raise e =>
      aggregate_reputation parse_float impl number numverify fraud twilio tellows count
      = Raise e
  end.
Proof.
  unfold aggregate_reputation.
  destruct (heuristics_score _) as [heur|e]; [| done]. rewrite bind_Ok.
  destruct (collected_sources_fuse parse_float impl heur fraud tellows count) as [overall ->].
  eexists. reflexivity.
Qed.

(** X14. The breakdown of every result starts with heuristics, lists its
    sources in the order heuristics, fraudscore, tellows, user_reports
    without repetition, gives each its configured weight (0.7, 0.2, 0.1,
    0.3), and holds user_reports exactly when the report count is positive,
    with score [min(90, 30 * count)]. *)
Theorem breakdown_shape
    (parse_float : string -> option float) (impl : sum_impl) (number : string)
    (numverify fraud twilio tellows : pyval) (count : Z) (r : ReputationResult) :
  aggregate_reputation parse_float impl number numverify fraud twilio tellows count = Ok r ->
  (∃ heur, heuristics_score (py_or numverify (VDict ∅)) = Ok heur ∧
           breakdown r !! 0%nat
           = Some ("heuristics", {| src_score := NFloat heur; src_weight := lit 7 10 |})) ∧
  sublist (fst <$> breakdown r) source_names ∧
  (∀ name s, (name, s) ∈ breakdown r -> src_weight s = configured_weight name) ∧
  (∀ s, ("user_reports", s) ∈ breakdown r <->
        0 < count ∧ s = {| src_score := NInt (Z.min 90 (count * 30));
                           src_weight := lit 3 10 |}).
Proof.
  unfold aggregate_reputation.
  destruct (heuristics_score _) as [heur|e]; [| discriminate]. rewrite bind_Ok.
  destruct (fuse _ _) as [overall|]; [| discriminate]. rewrite bind_Ok.
  intros [= <-]. cbn [breakdown].
  destruct (collect_sources_shape parse_float heur fraud tellows count)
    as (F & T & U & -> & HF & HT & HU).
  split; [by exists heur |].
  destruct HF as [-> | [f ->]], HT as [-> | [t ->]], HU as [[Hc ->] | [Hc ->]];
    cbn [app fmap list_fmap fst].
  all: split; [unfold source_names;
               repeat first [apply sublist_skip | apply sublist_cons | apply sublist_nil] |].
  all: split; [intros name s Hin; cases_of Hin; injection Hin as -> ->; reflexivity |].
  all: intros s; split;
    [intros Hin; cases_of Hin; try discriminate; try (injection Hin as <-; by split)
    | intros [Hpos ->]; try (exfalso; lia);
      repeat first [apply list_elem_of_here | apply list_elem_of_further]].
Qed.

Lemma breakdown_shape_witness :
  ∃ r, aggregate_reputation (fun _ => None) LeftToRight "+1" (VDict ∅)
         (VDict {["fraud_score" := VStr "n/a"]}) VNone (VDict {["score" := VInt 5]}) 4 = Ok r ∧
       fst <$> breakdown r = ["heuristics"; "tellows"; "user_reports"] ∧
       ∀ s, ("user_reports", s) ∈ breakdown r ->
            s = {| src_score := NInt 90; src_weight := lit 3 10 |}.
Proof.
  eexists. split; [vm_compute; reflexivity |]. split; [reflexivity |].
  intros s Hs.
  eapply (breakdown_shape (fun _ => None) LeftToRight "+1" (VDict ∅)
            (VDict {["fraud_score" := VStr "n/a"]}) VNone (VDict {["score" := VInt 5]}) 4);
    [vm_compute; reflexivity | exact Hs].
Defined.

(** X23. With the three placeholder adapters and no user reports, which is
    how [lookup_number] calls it, the reputation is the heuristic alone:
    the score is [heuristics_score] of the payload, the label is the
    threshold label of that value and heuristics is the only source. *)
Theorem placeholder_reputation
    (parse_float : string -> option float) (impl : sum_impl) (number : string)
    (p : gmap string pyval) (h : float) :
  heuristics_score (VDict p) = Ok h ->
  aggregate_reputation parse_float impl number (VDict p) (call_fraudscore number)
    (call_twilio_lookup number) (call_tellows number) 0
  = Ok {| score := h; label := label_of h;
          breakdown :=
            [("heuristics", {| src_score := NFloat h; src_weight := lit 7 10 |})] |}.
Proof.
  intros Hh. unfold aggregate_reputation.
  rewrite py_or_dict, Hh, bind_Ok. unfold collect_sources.
  rewrite add_fraud_absent, add_tellows_absent, add_user_reports_none by (exact I || lia).
  destruct (heuristics_score_range _ _ Hh) as (n & Hn & ->).
  unfold heuristic_values in Hn.
  destruct impl; cases_of Hn; vm_compute; reflexivity.
Qed.

Lemma placeholder_reputation_witness :
  aggregate_reputation (fun _ => None) Compensated "+882160000000"
    (VDict {["line_type" := VStr "Satellite"]}) (call_fraudscore "+882160000000")
    (call_twilio_lookup "+882160000000") (call_tellows "+882160000000") 0
  = Ok {| score := of_Z 80; label := "spam";
          breakdown :=
            [("heuristics", {| src_score := NFloat (of_Z 80); src_weight := lit 7 10 |})] |}.
Proof.
  apply (placeholder_reputation (fun _ => None) Compensated "+882160000000"
           {["line_type" := VStr "Satellite"]} (of_Z 80)).
  vm_compute. reflexivity.
Defined.

End AggregateLaws.

(** ** Extraction: what de-duplication leaves alone; PDF pages *)

Module ExtractLaws.
Import Py PyProps Extract Pdf ExtractProps.

Lemma unique_loop_fresh (l : list string) (seen : gset string) (out : list string) :
  NoDup l -> (∀ s, s ∈ l -> s ∉ seen) ->
  (fold_left unique_step l (seen, out)).2 = out ++ l.
Proof.
  revert seen out. induction l as [|n l IH]; intros seen out Hnodup Hfresh; cbn [fold_left].
  - by rewrite app_nil_r.
  - apply NoDup_cons in Hnodup as [Hn Hnodup].
    unfold unique_step at 2. destruct (decide (n ∈ seen)) as [Hin|_].
    + destruct (Hfresh n); [apply list_elem_of_here | done].
    + rewrite IH; [by rewrite <- app_assoc | done |].
      intros s Hs [->%elem_of_singleton | Hseen]%elem_of_union; [done |].
      by apply (Hfresh s); [apply list_elem_of_further |].
Qed.

Lemma unique_preserve_order_fixed (l : list string) :
  NoDup l -> unique_preserve_order l = l.
Proof.
  intros Hnodup. unfold unique_preserve_order.
  rewrite unique_loop_fresh; [done | done |]. intros s _. apply not_elem_of_empty.
Qed.

Lemma unique_preserve_order_length (l : list string) :
  (length (unique_preserve_order l) <= length l)%nat.
Proof.
  destruct (unique_preserve_order_spec l) as (Hnodup & Hmem & _).
  apply submseteq_length, NoDup_submseteq; [done |]. intros s. apply Hmem.
Qed.

(** X15. The output never has more entries than the matcher found matches,
    and it is a fixed point of the de-duplication: running the "unique
    preserve order" loop on it again changes nothing. *)
Theorem output_is_stable
    (PhoneNumber : Type)
    (PhoneNumberMatcher : string -> option string -> list (PhoneNumberMatch PhoneNumber))
    (format_number_E164 : PhoneNumber -> res string)
    (text : string) (region : option string) :
  let out := extract_numbers_from_text PhoneNumberMatcher format_number_E164 text region in
  (length out <= length (PhoneNumberMatcher text (region_or_none region)))%nat ∧
  unique_preserve_order out = out.
Proof.
  intros out. unfold out. rewrite extract_unique. split.
  - etrans; [apply unique_preserve_order_length |].
    unfold results_of. destruct (negb (str_truthy text)); cbn [length]; [lia |].
    by rewrite collect_fmap, length_fmap.
  - apply unique_preserve_order_fixed, unique_preserve_order_spec.
Qed.

Lemma page_texts_omap (pages : list (res (option string))) :
  page_texts pages
  = omap (fun page : res (option string) =>
            match page with Ok t => Some (default "" t) | Raise _ => None end) pages.
Proof.
  unfold page_texts.
  enough (∀ acc, fold_left
            (fun text (page : res (option string)) =>
               match page with Ok t => text ++ [default "" t] | Raise _ => text end)
            pages acc
          = acc ++ omap (fun page : res (option string) =>
                           match page with Ok t => Some (default "" t) | Raise _ => None end)
                     pages) as H by apply (H []).
  induction pages as [|[t|e] pages IH]; intros acc; cbn [fold_left omap list_omap].
  - by rewrite app_nil_r.
  - by rewrite IH, <- app_assoc.
  - apply IH.
Qed.

(** X16. [extract_numbers_from_pdf] returns the empty list when the reader
    fails, never returns a duplicate, and does not see pages whose text
    extraction raises: inserting such a page anywhere leaves the result
    unchanged. *)
Theorem failing_pages_are_skipped
    (PhoneNumber : Type)
    (PhoneNumberMatcher : string -> option string -> list (PhoneNumberMatch PhoneNumber))
    (format_number_E164 : PhoneNumber -> res string)
    (before after : list (res (option string))) (e : exn) :
  let pdf := extract_numbers_from_pdf PhoneNumberMatcher format_number_E164 in
  pdf (Raise e) = [] ∧
  NoDup (pdf (Ok (before ++ after))) ∧
  pdf (Ok (before ++ Raise e :: after)) = pdf (Ok (before ++ after)).
Proof.
  intros pdf. split; [done |]. split.
  - unfold pdf, extract_numbers_from_pdf. rewrite extract_unique.
    apply unique_preserve_order_spec.
  - unfold pdf, extract_numbers_from_pdf. rewrite !page_texts_omap, !omap_app. done.
Qed.

End ExtractLaws.

(** ** Geocoding *)

Module GeocodeLaws.
Import Py PyProps Providers Geocode.

Lemma geometry_of_shape (data out : pyval) :
  geometry_of data = Some out -> ∃ lat lng, out = VDict {["lat" := lat; "lng" := lng]}.
Proof.
  unfold geometry_of. destruct data as [| | | | | |d]; try discriminate.
  cbn [mbind option_bind]. destruct (py_truthy _); [| discriminate].
  destruct (d !! "results") as [results|]; [| discriminate]. cbn [mbind option_bind].
  destruct (first_item results) as [first|]; [| discriminate]. cbn [mbind option_bind].
  destruct (item first "geometry") as [geo|]; [| discriminate]. cbn [mbind option_bind].
  destruct (item geo "lat") as [lat|]; [| discriminate]. cbn [mbind option_bind].
  destruct (item geo "lng") as [lng|]; [| discriminate]. cbn [mbind option_bind].
  intros [= <-]. eauto.
Qed.

(** X17. [geocode_city] sends at most one request and returns either
    [None] or a dict with exactly the fields [lat] and [lng]; without a
    credential or without a city it sends nothing and returns [None]; the
    query is the city alone when the country is empty. *)
Theorem geocode_city_shape
    (OPENCAGE_KEY : string) (geo_get : list geo_request -> geo_request -> response)
    (city country : pyval) (log : list geo_request) :
  let '(coords, log') := geocode_city OPENCAGE_KEY geo_get city country log in
  (coords = VNone ∨ ∃ lat lng, coords = VDict {["lat" := lat; "lng" := lng]}) ∧
  (log' = log ∨
   ∃ q, log' = log ++ [{| geo_q := q; geo_key := OPENCAGE_KEY; geo_limit := 1 |}] ∧
        (py_truthy country = false -> q = QCity city)) ∧
  (str_truthy OPENCAGE_KEY = false ∨ py_truthy city = false -> coords = VNone ∧ log' = log).
Proof.
  unfold geocode_city.
  destruct (str_truthy OPENCAGE_KEY) eqn:Hkey, (py_truthy city) eqn:Hcity; cbn [negb orb];
    try by (split; [by left |]; split; [by left |]).
  split; [| split].
  - destruct (geo_get _ _) as [data|msg]; [| by left].
    destruct (geometry_of data) as [out|] eqn:Hgeo; [| by left].
    right. by apply (geometry_of_shape data).
  - right. eexists. split; [reflexivity |]. by intros ->.
  - by intros [? | ?].
Qed.

Lemma geocode_city_shape_witness :
  geocode_city "" (fun _ _ => HttpJson VNone) (VStr "Paris") (VStr "France") []
  = (VNone, []).
Proof.
  pose proof (geocode_city_shape "" (fun _ _ => HttpJson VNone) (VStr "Paris")
                (VStr "France") []) as H.
  destruct (geocode_city _ _ _ _ _) as [coords log'].
  destruct H as (_ & _ & H). destruct H as [-> ->]; [by left | reflexivity].
Defined.

(** X18. When the decoded answer lists results, the coordinates are the
    [lat] and [lng] of the first result's geometry, whatever else the
    answer holds. *)
Theorem first_result_wins
    (OPENCAGE_KEY : string) (geo_get : list geo_request -> geo_request -> response)
    (city country : pyval) (log : list geo_request)
    (answer first geometry : gmap string pyval) (others : list pyval) (lat lng : pyval) :
  str_truthy OPENCAGE_KEY = true ->
  py_truthy city = true ->
  geo_get log {| geo_q := if py_truthy country then QCityCountry city country else QCity city;
                 geo_key := OPENCAGE_KEY; geo_limit := 1 |} = HttpJson (VDict answer) ->
  answer !! "results" = Some (VList (VDict first :: others)) ->
  first !! "geometry" = Some (VDict geometry) ->
  geometry !! "lat" = Some lat ->
  geometry !! "lng" = Some lng ->
  (geocode_city OPENCAGE_KEY geo_get city country log).1
  = VDict {["lat" := lat; "lng" := lng]}.
Proof.
  intros Hkey Hcity Hanswer Hresults Hgeo Hlat Hlng.
  unfold geocode_city. rewrite Hkey, Hcity. cbn [negb orb fst]. rewrite Hanswer.
  unfold geometry_of, dict_get. cbn [mbind option_bind]. rewrite Hresults.
  cbn [default from_option id py_truthy mbind option_bind first_item item].
  rewrite Hgeo. cbn [mbind option_bind item]. rewrite Hlat. cbn [mbind option_bind].
  rewrite Hlng. reflexivity.
Qed.

Lemma first_result_wins_witness :
  let answer : gmap string pyval :=
    {["results" := VList [VDict {["geometry" := VDict {["lat" := VInt 48; "lng" := VInt 2;
                                                         "extra" := VNone]}]};
                          VDict {["geometry" := VDict {["lat" := VInt 0; "lng" := VInt 0]}]}];
      "status" := VStr "ok"]} in
  (geocode_city "key" (fun _ _ => HttpJson (VDict answer)) (VStr "Paris") (VStr "") []).1
  = VDict {["lat" := VInt 48; "lng" := VInt 2]}.
Proof.
  intros answer.
  eapply (first_result_wins "key" (fun _ _ => HttpJson (VDict answer)) (VStr "Paris")
            (VStr "") [] answer); reflexivity.
Defined.

End GeocodeLaws.

(** ** Lookup orchestrator *)

Module OrchestratorLaws.
Import Py PyProps Cache Providers ProvidersSpec Reputation Geocode Orchestrator.
Import ReputationSpec CacheProps ProvidersProps AggregateProps CacheLaws ProviderLaws HeuristicsLaws.

Lemma composite_truthy number numv fraud tw tellows count agg coords ts :
  py_truthy (composite number numv fraud tw tellows count agg coords ts) = true.
Proof.
  unfold composite, py_truthy. rewrite bool_decide_eq_false_2; [done |].
  apply insert_non_empty.
Qed.

Section Lookup.
Variable NUMVERIFY_KEY OPENCAGE_KEY : string.
Variable http_get : list request -> request -> response.
Variable geo_get : list geo_request -> geo_request -> response.
Variable parse_float : string -> option float.
Variable impl : sum_impl.

(** The path of a lookup that misses the composite entry and completes. *)
Lemma lookup_miss number c s cached f1 numv w1 agg nv coords glog ts d1 :
  cache_get ("fullint:" +:+ number) (t_lookup c) (cache_file (providers s))
    = Ok (cached, f1) ->
  py_truthy cached = false ->
  call_numverify NUMVERIFY_KEY http_get number (t_nv_get c) (t_nv_set c)
    {| cache_file := f1; net_log := net_log (providers s) |} = Ok (numv, w1) ->
  aggregate_reputation parse_float impl number numv (call_fraudscore number)
    (call_twilio_lookup number) (call_tellows number) 0 = Ok agg ->
  as_dict numv = Ok nv ->
  geocode_city OPENCAGE_KEY geo_get (py_or (dict_get nv "location") (VStr ""))
    (py_or (dict_get nv "country_name") (VStr "")) (geo_log s) = (coords, glog) ->
  py_int (t_stamp c) = Ok ts ->
  _load_cache (cache_file w1) = VDict d1 ->
  let result :=
    composite number numv (call_fraudscore number) (call_twilio_lookup number)
      (call_tellows number) 0 (reputation_to_py agg) coords ts in
  lookup_number NUMVERIFY_KEY OPENCAGE_KEY http_get geo_get parse_float impl number c s
  = Ok (result,
        {| providers :=
             {| cache_file :=
                  Some (VDict (<["fullint:" +:+ number := record (t_store c) result]> d1));
                net_log := net_log w1 |};
           geo_log := glog |}).
Proof.
  intros Hget Hmiss Hnv Hagg Hdict Hgeo Hts Hd1 result.
  unfold lookup_number. rewrite Hget, bind_Ok, Hmiss, Hnv, bind_Ok, Hagg, bind_Ok.
  rewrite Hdict, bind_Ok, Hgeo, Hts, bind_Ok.
  unfold cache_set. by rewrite Hd1.
Qed.

Lemma lookup_miss_inv number c s cached f1 result s' :
  cache_get ("fullint:" +:+ number) (t_lookup c) (cache_file (providers s))
    = Ok (cached, f1) ->
  py_truthy cached = false ->
  lookup_number NUMVERIFY_KEY OPENCAGE_KEY http_get geo_get parse_float impl number c s
    = Ok (result, s') ->
  py_truthy result = true ∧
  ∃ d1 log glog,
    s' = {| providers :=
              {| cache_file :=
                   Some (VDict (<["fullint:" +:+ number := record (t_store c) result]> d1));
                 net_log := log |};
            geo_log := glog |}.
Proof.
  intros Hget Hmiss. unfold lookup_number. rewrite Hget, bind_Ok, Hmiss.
  destruct (call_numverify _ _ _ _ _ _) as [[numv w1]|]; [| discriminate]. rewrite bind_Ok.
  destruct (aggregate_reputation _ _ _ _ _ _ _ _) as [agg|]; [| discriminate].
  rewrite bind_Ok.
  destruct (as_dict numv) as [nv|]; [| discriminate]. rewrite bind_Ok.
  destruct (geocode_city _ _ _ _ _) as [coords glog].
  destruct (py_int _) as [ts|]; [| discriminate]. rewrite bind_Ok.
  destruct (cache_set _ _ _ _) as [f2|] eqn:Hset; [| discriminate]. rewrite bind_Ok.
  destruct (cache_set_ok _ _ _ _ _ Hset) as (d1 & _ & ->).
  intros [= <- <-]. split; [apply composite_truthy |]. by exists d1, (net_log w1), glog.
Qed.
End Lookup.

(** X19. A lookup that missed the composite entry and completed has stored
    its result: while that record is fresh, every further lookup of the
    number returns the very same result, sends no request and changes
    nothing, whatever the credentials and the providers are by then. *)
Theorem composite_is_cached
    (NUMVERIFY_KEY OPENCAGE_KEY : string)
    (http_get : list request -> request -> response)
    (geo_get : list geo_request -> geo_request -> response)
    (parse_float : string -> option float) (impl : sum_impl)
    (number : string) (c : clock) (s s' : state) (cached result : pyval) (f1 : file) :
  cache_get ("fullint:" +:+ number) (t_lookup c) (cache_file (providers s))
    = Ok (cached, f1) ->
  py_truthy cached = false ->
  lookup_number NUMVERIFY_KEY OPENCAGE_KEY http_get geo_get parse_float impl number c s
    = Ok (result, s') ->
  ∀ key' okey' http_get' geo_get' parse_float' impl' c',
    expired (t_lookup c') (t_store c) = false ->
    lookup_number key' okey' http_get' geo_get' parse_float' impl' number c' s'
      = Ok (result, s').
Proof.
  intros Hget Hmiss Hlookup key' okey' http_get' geo_get' parse_float' impl' c' Hage.
  destruct (lookup_miss_inv _ _ _ _ _ _ _ _ _ _ _ _ _ Hget Hmiss Hlookup)
    as (Htruthy & d1 & log & glog & ->).
  unfold lookup_number. cbn [providers cache_file].
  erewrite cache_get_record; [| reflexivity | apply lookup_insert_eq].
  by rewrite Hage, bind_Ok, Htruthy.
Qed.

Lemma aggregate_marker parse_float impl number msg :
  aggregate_reputation parse_float impl number (VDict {["error" := VStr msg]})
    (call_fraudscore number) (call_twilio_lookup number) (call_tellows number) 0
  = Ok {| score := of_Z 30; label := "clean";
          breakdown :=
            [("heuristics", {| src_score := NFloat (of_Z 30); src_weight := lit 7 10 |})] |}.
Proof. destruct impl; vm_compute; reflexivity. Qed.

Lemma geocode_marker okey geo_get msg log :
  geocode_city okey geo_get
    (py_or (dict_get {["error" := VStr msg]} "location") (VStr ""))
    (py_or (dict_get {["error" := VStr msg]} "country_name") (VStr "")) log
  = (VNone, log).
Proof.
  assert (py_or (dict_get {["error" := VStr msg]} "location") (VStr "") = VStr "") as ->
    by (vm_compute; reflexivity).
  unfold geocode_city. cbn [py_truthy str_truthy negb]. by rewrite orb_true_r.
Qed.

(** X20. With no NumVerify credential and nothing cached for the number, a
    lookup contacts nobody and still completes: the result carries the
    missing-credential marker, the placeholder notes, no coordinates and the
    reputation 30.0 "clean" of the heuristic alone.  The marker itself is
    not stored, but the composite result is, under ["fullint:<number>"]. *)
Theorem unconfigured_lookup
    (OPENCAGE_KEY : string)
    (http_get : list request -> request -> response)
    (geo_get : list geo_request -> geo_request -> response)
    (parse_float : string -> option float) (impl : sum_impl)
    (number : string) (c : clock) (s : state) (d : gmap string pyval) (ts : Z) :
  _load_cache (cache_file (providers s)) = VDict d ->
  d !! ("fullint:" +:+ number) = None ->
  d !! ("numverify:" +:+ number) = None ->
  py_int (t_stamp c) = Ok ts ->
  let result := degraded_result number "NUMVERIFY_KEY not set" ts in
  lookup_number "" OPENCAGE_KEY http_get geo_get parse_float impl number c s
  = Ok (result,
        {| providers :=
             {| cache_file :=
                  Some (VDict (<["fullint:" +:+ number := record (t_store c) result]> d));
                net_log := net_log (providers s) |};
           geo_log := geo_log s |}).
Proof.
  intros Hload Hfull Hnv Hts result.
  assert (call_numverify "" http_get number (t_nv_get c) (t_nv_set c)
            {| cache_file := cache_file (providers s); net_log := net_log (providers s) |}
          = Ok (unconfigured, providers s)) as Hcall.
  { unfold call_numverify. cbn [cache_file].
    rewrite (cache_get_missing _ _ _ d Hload Hnv), bind_Ok.
    cbn [py_truthy str_truthy negb net_log]. by rewrite world_eta. }
  exact (lookup_miss "" OPENCAGE_KEY http_get geo_get parse_float impl number c s
           VNone (cache_file (providers s)) unconfigured (providers s) _
           {["error" := VStr "NUMVERIFY_KEY not set"]} VNone (geo_log s) ts d
           (cache_get_missing _ _ _ d Hload Hfull) eq_refl Hcall
           (aggregate_marker parse_float impl number "NUMVERIFY_KEY not set") eq_refl
           (geocode_marker OPENCAGE_KEY geo_get "NUMVERIFY_KEY not set" (geo_log s))
           Hts Hload).
Qed.

Lemma unconfigured_lookup_witness :
  let c := {| t_lookup := of_Z 1700000000; t_nv_get := of_Z 1700000001;
              t_nv_set := of_Z 1700000002; t_stamp := lit 17000000035 10;
              t_store := of_Z 1700000004 |} in
  let s := {| providers := {| cache_file := None; net_log := [] |}; geo_log := [] |} in
  ∃ s', lookup_number "" "geo-key" (fun _ _ => HttpJson (VDict ∅))
          (fun _ _ => HttpJson (VDict ∅)) (fun _ => None) LeftToRight "+14155552671" c s
        = Ok (degraded_result "+14155552671" "NUMVERIFY_KEY not set" 1700000003, s') ∧
        net_log (providers s') = [] ∧ geo_log s' = [].
Proof.
  intros c s. eexists. split.
  - apply (unconfigured_lookup "geo-key" (fun _ _ => HttpJson (VDict ∅))
             (fun _ _ => HttpJson (VDict ∅)) (fun _ => None) LeftToRight "+14155552671" c s ∅);
      reflexivity.
  - split; reflexivity.
Defined.

(** X21. With a credential and nothing cached for the number, a transport
    failure does not abort the lookup: one NumVerify request is sent, none
    to the geocoder, the result carries [{"error": msg}] in its NumVerify
    slot with the reputation 30.0 "clean", and both the marker and the
    composite result are stored. *)
Theorem failed_provider_lookup
    (NUMVERIFY_KEY OPENCAGE_KEY : string)
    (http_get : list request -> request -> response)
    (geo_get : list geo_request -> geo_request -> response)
    (parse_float : string -> option float) (impl : sum_impl)
    (number msg : string) (c : clock) (s : state) (d : gmap string pyval) (ts : Z) :
  let params := {| access_key := NUMVERIFY_KEY; req_number := number |} in
  _load_cache (cache_file (providers s)) = VDict d ->
  d !! ("fullint:" +:+ number) = None ->
  d !! ("numverify:" +:+ number) = None ->
  str_truthy NUMVERIFY_KEY = true ->
  http_get (net_log (providers s)) params = HttpFail msg ->
  py_int (t_stamp c) = Ok ts ->
  let result := degraded_result number msg ts in
  lookup_number NUMVERIFY_KEY OPENCAGE_KEY http_get geo_get parse_float impl number c s
  = Ok (result,
        {| providers :=
             {| cache_file :=
                  Some (VDict (<["fullint:" +:+ number := record (t_store c) result]>
                                 (<["numverify:" +:+ number
                                    := record (t_nv_set c) (error_marker msg)]> d)));
                net_log := net_log (providers s) ++ [params] |};
           geo_log := geo_log s |}).
Proof.
  intros params Hload Hfull Hnv Hcred Hfail Hts result.
  destruct (call_numverify_miss NUMVERIFY_KEY http_get number (t_nv_get c) (t_nv_set c)
              {| cache_file := cache_file (providers s); net_log := net_log (providers s) |}
              VNone (cache_file (providers s)))
    as (d1 & Hd1 & Hcall); [by apply (cache_get_missing _ _ _ d) | done | done |].
  cbn [net_log] in Hcall. fold params in Hcall. rewrite Hfail in Hcall.
  cbn [payload_of] in Hcall. rewrite Hload in Hd1. injection Hd1 as <-.
  exact (lookup_miss NUMVERIFY_KEY OPENCAGE_KEY http_get geo_get parse_float impl number c s
           VNone (cache_file (providers s)) (error_marker msg) _ _
           {["error" := VStr msg]} VNone (geo_log s) ts _
           (cache_get_missing _ _ _ d Hload Hfull) eq_refl Hcall
           (aggregate_marker parse_float impl number msg) eq_refl
           (geocode_marker OPENCAGE_KEY geo_get msg (geo_log s)) Hts eq_refl).
Qed.

Lemma failed_provider_lookup_witness :
  let c := {| t_lookup := of_Z 1700000000; t_nv_get := of_Z 1700000001;
              t_nv_set := of_Z 1700000002; t_stamp := of_Z 1700000003;
              t_store := of_Z 1700000004 |} in
  let s := {| providers := {| cache_file := None; net_log := [] |}; geo_log := [] |} in
  ∃ s', lookup_number "secret" "geo-key" (fun _ _ => HttpFail "timed out")
          (fun _ _ => HttpJson (VDict ∅)) (fun _ => None) Compensated "+14155552671" c s
        = Ok (degraded_result "+14155552671" "timed out" 1700000003, s') ∧
        length (net_log (providers s')) = 1%nat ∧ geo_log s' = [].
Proof.
  intros c s. eexists. split.
  - apply (failed_provider_lookup "secret" "geo-key" (fun _ _ => HttpFail "timed out")
             (fun _ _ => HttpJson (VDict ∅)) (fun _ => None) Compensated "+14155552671"
             "timed out" c s ∅); reflexivity.
  - split; reflexivity.
Defined.

Lemma composite_is_cached_witness :
  let c := {| t_lookup := of_Z 1700000000; t_nv_get := of_Z 1700000001;
              t_nv_set := of_Z 1700000002; t_stamp := of_Z 1700000003;
              t_store := of_Z 1700000004 |} in
  let later := {| t_lookup := of_Z 1700500000; t_nv_get := of_Z 1700500001;
                  t_nv_set := of_Z 1700500002; t_stamp := of_Z 1700500003;
                  t_store := of_Z 1700500004 |} in
  let s := {| providers := {| cache_file := None; net_log := [] |}; geo_log := [] |} in
  let silent : list request -> request -> response := fun _ _ => HttpFail "unused" in
  let up : list request -> request -> response :=
    fun _ _ => HttpJson (VDict {["line_type" := VStr "mobile"]}) in
  ∃ result s',
    lookup_number "" "" silent (fun _ _ => HttpFail "unused") (fun _ => None) LeftToRight
      "+14155552671" c s = Ok (result, s') ∧
    lookup_number "secret" "geo-key" up (fun _ _ => HttpJson (VDict ∅)) (fun _ => None)
      Compensated "+14155552671" later s' = Ok (result, s').
Proof.
  intros c later s silent up.
  assert (∃ result s',
            lookup_number "" "" silent (fun _ _ => HttpFail "unused") (fun _ => None)
              LeftToRight "+14155552671" c s = Ok (result, s')) as (result & s' & Hfirst).
  { eexists _, _. vm_compute. reflexivity. }
  exists result, s'. split; [exact Hfirst |].
  eapply (composite_is_cached "" "" silent (fun _ _ => HttpFail "unused") (fun _ => None)
            LeftToRight "+14155552671" c s s' VNone result None);
    [reflexivity | reflexivity | exact Hfirst | vm_compute; reflexivity].
Defined.

(** X22. A stored NumVerify payload whose [line_type] or [carrier] is
    neither falsy nor a string makes every lookup of the number raise
    [AttributeError] for as long as the record is fresh and no composite
    result is cached, whatever the credentials and the providers are. *)
Theorem bad_payload_poisons_lookups
    (NUMVERIFY_KEY OPENCAGE_KEY : string)
    (http_get : list request -> request -> response)
    (geo_get : list geo_request -> geo_request -> response)
    (parse_float : string -> option float) (impl : sum_impl)
    (number : string) (c : clock) (s : state) (d payload : gmap string pyval)
    (stored_at : float) :
  _load_cache (cache_file (providers s)) = VDict d ->
  d !! ("fullint:" +:+ number) = None ->
  d !! ("numverify:" +:+ number) = Some (record stored_at (VDict payload)) ->
  expired (t_nv_get c) stored_at = false ->
  ¬ textual (dict_get payload "line_type") ∨ ¬ textual (dict_get payload "carrier") ->
  lookup_number NUMVERIFY_KEY OPENCAGE_KEY http_get geo_get parse_float impl number c s
  = Raise AttributeError.
Proof.
  intros Hload Hfull Hnv Hage Hbad.
  assert (payload ≠ ∅) as Hne.
  { intros ->. destruct Hbad as [H | H]; apply H; by left. }
  assert (py_truthy (VDict payload) = true) as Htruthy.
  { unfold py_truthy. by rewrite bool_decide_eq_false_2. }
  assert (heuristics_score (VDict payload) = Raise AttributeError) as Hheur.
  { unfold heuristics_score. cbn [as_dict]. rewrite bind_Ok.
    destruct (py_lower_or_cases (dict_get payload "line_type")) as [[Tl [lt ->]] | [_ ->]];
      [| done].
    rewrite bind_Ok.
    destruct (py_lower_or_cases (dict_get payload "carrier")) as [[Tc _] | [_ ->]];
      [| done].
    by destruct Hbad. }
  unfold lookup_number. rewrite (cache_get_missing _ _ _ d Hload Hfull), bind_Ok.
  cbn [py_truthy].
  rewrite (call_numverify_hit NUMVERIFY_KEY http_get number (t_nv_get c) (t_nv_set c)
             stored_at
             {| cache_file := cache_file (providers s); net_log := net_log (providers s) |}
             d (VDict payload) Hload Hnv Hage Htruthy), bind_Ok.
  unfold aggregate_reputation. by rewrite py_or_dict, Hheur.
Qed.

Lemma bad_payload_poisons_lookups_witness :
  let c := {| t_lookup := of_Z 1700000100; t_nv_get := of_Z 1700000101;
              t_nv_set := of_Z 1700000102; t_stamp := of_Z 1700000103;
              t_store := of_Z 1700000104 |} in
  let d : gmap string pyval :=
    {["numverify:+1" := record (of_Z 1700000000) (VDict {["line_type" := VInt 2]})]} in
  let s := {| providers := {| cache_file := Some (VDict d); net_log := [] |};
              geo_log := [] |} in
  lookup_number "secret" "geo-key" (fun _ _ => HttpJson (VDict ∅))
    (fun _ _ => HttpJson (VDict ∅)) (fun _ => None) LeftToRight "+1" c s
  = Raise AttributeError.
Proof.
  intros c d s.
  apply (bad_payload_poisons_lookups "secret" "geo-key" (fun _ _ => HttpJson (VDict ∅))
           (fun _ _ => HttpJson (VDict ∅)) (fun _ => None) LeftToRight "+1" c s d
           {["line_type" := VInt 2]} (of_Z 1700000000));
    try (vm_compute; reflexivity).
  left. intros [H | [str H]]; [vm_compute in H | vm_compute in H]; discriminate.
Defined.

End OrchestratorLaws.
